(** * NDRP validator aggregation: hygiene score, rating and severity counts

    A shallow embedding of [validator/aggregation.py] and the properties of
    its single public function [aggregate_validator_results], followed by
    the report and counting code of [validate.py].

    Python [int] is unbounded, so scores, weights and counts are [Z].
    Python [dict], [Counter] and [defaultdict] are finite maps with string
    keys ([gmap string _]); equality of two such maps is Python's [==] on
    dicts (same keys, same values, insertion order not compared).
    Operations that can raise in Python (subscripting, [getattr]) return in
    the exception monad [Exc]. *)

From Stdlib Require Import ZArith Ascii Sorted.
From stdpp Require Import gmap strings list fin_maps pretty.

Local Open Scope string_scope.
Local Open Scope Z_scope.

(** ** Exceptions *)

Inductive PyException : Type :=
| KeyError (key : string)
| AttributeError (name : string)
| TypeError.

Definition Exc (A : Type) : Type := PyException + A.

Definition raise {A : Type} (e : PyException) : Exc A := inl e.

#[global] Instance Exc_ret : MRet Exc := fun A a => inr a.

#[global] Instance Exc_bind : MBind Exc := fun A B f m =>
  match m with
  | inl e => inl e
  | inr a => f a
  end.

(** ** Python values seen by the aggregator *)

(** A value stored under a key or an attribute. [PyOpaque shown] is a value
    of any other type (a number, a list, an instance of a class); [shown]
    is what [str()] returns for it. *)
Inductive PyValue : Type :=
| PyNone
| PyBool (b : bool)
| PyStr (s : string)
| PyOpaque (shown : string).

(** [str(v)] *)
Definition py_str (v : PyValue) : string :=
  match v with
  | PyNone => "None"
  | PyBool true => "True"
  | PyBool false => "False"
  | PyStr s => s
  | PyOpaque shown => shown
  end.

(** What [isinstance] tells about a result item: a [Mapping] with its
    entries (those under string keys, the only ones ["severity" in result]
    can find), a [str] with its characters, or neither. *)
Inductive PyKind : Type :=
| Mapping (entries : gmap string PyValue)
| Str (s : string)
| Other.

(** A result item: its kind and the attributes [getattr] resolves on it. *)
Record PyObject : Type := mkObject {
  kind : PyKind;
  attributes : gmap string PyValue;
}.

(** The literals the callers and the tests build. *)
Definition py_dict (entries : gmap string PyValue) : PyObject :=
  mkObject (Mapping entries) ∅.
Definition py_string (s : string) : PyObject := mkObject (Str s) ∅.
Definition py_instance (attrs : gmap string PyValue) : PyObject :=
  mkObject Other attrs.

Definition isinstance_Mapping (o : PyObject) : bool :=
  match kind o with Mapping _ => true | _ => false end.

(** [key in o] for a mapping [o] *)
Definition py_in (key : string) (o : PyObject) : bool :=
  match kind o with
  | Mapping entries => bool_decide (is_Some (entries !! key))
  | _ => false
  end.

(** [o[key]]: raises [KeyError] when the key is missing *)
Definition py_getitem (o : PyObject) (key : string) : Exc PyValue :=
  match kind o with
  | Mapping entries =>
      match entries !! key with
      | Some v => mret v
      | None => raise (KeyError key)
      end
  | _ => raise TypeError
  end.

Definition hasattr (o : PyObject) (name : string) : bool :=
  bool_decide (is_Some (attributes o !! name)).

(** [getattr(o, name)]: raises [AttributeError] when there is none *)
Definition getattr (o : PyObject) (name : string) : Exc PyValue :=
  match attributes o !! name with
  | Some v => mret v
  | None => raise (AttributeError name)
  end.

(** ** Dictionaries *)

(** [d[key]] on a dict of the module *)
Definition dict_getitem {V : Type} (d : gmap string V) (key : string) : Exc V :=
  match d !! key with
  | Some v => mret v
  | None => raise (KeyError key)
  end.

(** [d.get(key, dflt)] *)
Definition dict_get {V : Type} (d : gmap string V) (key : string) (dflt : V) : V :=
  default dflt (d !! key).

(** [d.setdefault(key, dflt)], for its effect on [d] *)
Definition dict_setdefault {V : Type} (d : gmap string V) (key : string) (dflt : V)
  : gmap string V :=
  match d !! key with
  | Some _ => d
  | None => <[key := dflt]> d
  end.

(** [c[key] += n] on a [Counter] or a [defaultdict(int)]: a missing key
    reads as 0 *)
Definition add_at (c : gmap string Z) (key : string) (n : Z) : gmap string Z :=
  <[key := default 0 (c !! key) + n]> c.

(** [m or {}] for an optional mapping: [None] and the empty mapping are
    falsy *)
Definition or_empty (m : option (gmap string Z)) : gmap string Z :=
  match m with
  | Some d => if bool_decide (d = ∅) then ∅ else d
  | None => ∅
  end.

(** [{**a, **b}]: the entries of [b] win *)
Definition dict_merge (a b : gmap string Z) : gmap string Z := b ∪ a.

(** ** Module constants *)

Definition DEFAULT_SEVERITY_WEIGHTS : gmap string Z :=
  list_to_map
    [("critical", 50); ("high", 25); ("medium", 10); ("low", 5); ("info", 0)].

Definition CRITICAL_SEVERITY : string := "critical".

Definition UNKNOWN_SEVERITY_WEIGHT : Z := 10.

Definition RATING_THRESHOLDS : gmap string Z :=
  list_to_map [("clean", 90); ("needs_attention", 60)].

Definition MAX_SCORE : Z := 100.

(** ** [_extract_severity] *)

Definition _extract_severity (result : PyObject) : Exc string :=
  if isinstance_Mapping result && py_in "severity" result then
    v ← py_getitem result "severity"; mret (py_str v)
  else if hasattr result "severity" then
    v ← getattr result "severity"; mret (py_str v)
  else
    match kind result with
    | Str s => mret s
    | _ => mret "unknown"
    end.

(** ** [_rating_from_score] *)

Definition _rating_from_score (score : Z) (counts : gmap string Z) : Exc string :=
  clean_min ← dict_getitem RATING_THRESHOLDS "clean";
  if (clean_min <=? score) && (dict_get counts CRITICAL_SEVERITY 0 =? 0) then
    mret "clean"
  else
    attention_min ← dict_getitem RATING_THRESHOLDS "needs_attention";
    if attention_min <=? score then mret "needs_attention"
    else mret "unsafe".

(** ** [aggregate_validator_results] *)

(** The three accumulators of the loop. *)
Module Acc.
Record t : Type := mk {
  severity_counts : gmap string Z;
  penalty_by_severity : gmap string Z;
  total_penalty : Z;
}.
End Acc.

Module Penalties.
Record t : Type := mk {
  total_penalty : Z;
  by_severity : gmap string Z;
  weights : gmap string Z;
  unknown_weight : Z;
}.
End Penalties.

(** The returned dict. *)
Module Verdict.
Record t : Type := mk {
  hygiene_score : Z;
  rating : string;
  severity_counts : gmap string Z;
  penalties : Penalties.t;
  max_score : Z;
}.
End Verdict.

(** The three updates of the loop body, for an extracted [severity]. *)
Definition accumulate (weights : gmap string Z) (acc : Acc.t) (severity : string)
  : Acc.t :=
  let weight := dict_get weights severity UNKNOWN_SEVERITY_WEIGHT in
  Acc.mk (add_at (Acc.severity_counts acc) severity 1)
         (add_at (Acc.penalty_by_severity acc) severity weight)
         (Acc.total_penalty acc + weight).

(** [for result in results: ...] *)
Fixpoint loop (weights : gmap string Z) (results : list PyObject) (acc : Acc.t)
  : Exc Acc.t :=
  match results with
  | [] => mret acc
  | result :: rest =>
      severity ← _extract_severity result;
      loop weights rest (accumulate weights acc severity)
  end.

(** [for severity in weights: out.setdefault(severity, 0)] *)
Definition ensure_keys (weights out : gmap string Z) : gmap string Z :=
  map_fold (fun severity _ out => dict_setdefault out severity 0) out weights.

(** [{**DEFAULT_SEVERITY_WEIGHTS, **(severity_weights or {})}] *)
Definition effective_weights (severity_weights : option (gmap string Z))
  : gmap string Z :=
  dict_merge DEFAULT_SEVERITY_WEIGHTS (or_empty severity_weights).

Definition aggregate_validator_results
    (results : list PyObject) (severity_weights : option (gmap string Z))
  : Exc Verdict.t :=
  let weights := effective_weights severity_weights in
  let severity_counts : gmap string Z := ∅ in
  let penalty_by_severity : gmap string Z := (fun _ => 0) <$> weights in
  let total_penalty := 0 in
  acc ← loop weights results (Acc.mk severity_counts penalty_by_severity total_penalty);
  let hygiene_score := Z.max 0 (MAX_SCORE - Acc.total_penalty acc) in
  rating ← _rating_from_score hygiene_score (Acc.severity_counts acc);
  let severity_counts_output := ensure_keys weights (Acc.severity_counts acc) in
  mret (Verdict.mk hygiene_score rating severity_counts_output
          (Penalties.mk (Acc.total_penalty acc) (Acc.penalty_by_severity acc)
             weights UNKNOWN_SEVERITY_WEIGHT)
          MAX_SCORE).

(** ** Items that run code when they are read

    A [PyObject] above is data: reading its ["severity"] and converting it
    with [str()] always return. [results] is [Iterable[Any]], though, and an
    item can be an instance of a class with code of its own: a [severity]
    property whose getter raises, a value whose [__str__] raises. Module
    [Any] embeds [_extract_severity] and [aggregate_validator_results] on
    such items; on data both embeddings agree ([extract_of_object] and
    [aggregate_of_objects] below). *)
Module Any.

(** A value stored under a key or an attribute: data, or an instance whose
    [__str__] raises [e]. *)
Inductive Value : Type :=
| Data (v : PyValue)
| StrRaises (e : PyException).

(** [str(v)] *)
Definition str (v : Value) : Exc string :=
  match v with
  | Data v => mret (py_str v)
  | StrRaises e => raise e
  end.

(** What reading an attribute does: it gives a value (a plain attribute, or
    a property whose getter returns), or it is a property whose getter
    raises [e]. *)
Inductive Attribute : Type :=
| Holds (v : Value)
| PropertyRaises (e : PyException).

Inductive Kind : Type :=
| Mapping (entries : gmap string Value)
| Str (s : string)
| Other.

Record Object : Type := mkObject {
  kind : Kind;
  attributes : gmap string Attribute;
}.

Definition isinstance_Mapping (o : Object) : bool :=
  match kind o with Mapping _ => true | _ => false end.

(** [key in o] for a mapping [o] *)
Definition py_in (key : string) (o : Object) : bool :=
  match kind o with
  | Mapping entries => bool_decide (is_Some (entries !! key))
  | _ => false
  end.

(** [o[key]] *)
Definition py_getitem (o : Object) (key : string) : Exc Value :=
  match kind o with
  | Mapping entries =>
      match entries !! key with
      | Some v => mret v
      | None => raise (KeyError key)
      end
  | _ => raise TypeError
  end.

(** [getattr(o, name)]: runs the getter of a property; raises
    [AttributeError] when there is no such attribute *)
Definition getattr (o : Object) (name : string) : Exc Value :=
  match attributes o !! name with
  | Some (Holds v) => mret v
  | Some (PropertyRaises e) => raise e
  | None => raise (AttributeError name)
  end.

(** [hasattr(o, name)]: calls [getattr] and catches [AttributeError] only;
    any other exception propagates *)
Definition hasattr (o : Object) (name : string) : Exc bool :=
  match getattr o name return Exc bool with
  | inr _ => mret true
  | inl (AttributeError _) => mret false
  | inl e => raise e
  end.

Definition _extract_severity (result : Object) : Exc string :=
  if isinstance_Mapping result && py_in "severity" result then
    v ← py_getitem result "severity"; str v
  else
    hasattr result "severity" ≫= fun has_severity : bool =>
    if has_severity then
      v ← getattr result "severity"; str v
    else
      match kind result with
      | Str s => mret s
      | _ => mret "unknown"
      end.

(** [for result in results: ...]: an exception raised while a severity is
    extracted leaves the loop and the function *)
Fixpoint loop (weights : gmap string Z) (results : list Object) (acc : Acc.t)
  : Exc Acc.t :=
  match results with
  | [] => mret acc
  | result :: rest =>
      severity ← _extract_severity result;
      loop weights rest (accumulate weights acc severity)
  end.

Definition aggregate_validator_results
    (results : list Object) (severity_weights : option (gmap string Z))
  : Exc Verdict.t :=
  let weights := effective_weights severity_weights in
  let severity_counts : gmap string Z := ∅ in
  let penalty_by_severity : gmap string Z := (fun _ => 0) <$> weights in
  let total_penalty := 0 in
  acc ← loop weights results (Acc.mk severity_counts penalty_by_severity total_penalty);
  let hygiene_score := Z.max 0 (MAX_SCORE - Acc.total_penalty acc) in
  rating ← _rating_from_score hygiene_score (Acc.severity_counts acc);
  let severity_counts_output := ensure_keys weights (Acc.severity_counts acc) in
  mret (Verdict.mk hygiene_score rating severity_counts_output
          (Penalties.mk (Acc.total_penalty acc) (Acc.penalty_by_severity acc)
             weights UNKNOWN_SEVERITY_WEIGHT)
          MAX_SCORE).

(** The entry a keyed structure holds under [key], if the item is one. *)
Definition keyed_entry (item : Object) (key : string) : option Value :=
  match kind item with
  | Mapping entries => entries !! key
  | _ => None
  end.

End Any.

(** A data item, as an item of module [Any]. *)
Definition of_object (o : PyObject) : Any.Object :=
  Any.mkObject
    match kind o with
    | Mapping entries => Any.Mapping (Any.Data <$> entries)
    | Str s => Any.Str s
    | Other => Any.Other
    end
    ((fun v => Any.Holds (Any.Data v)) <$> attributes o).

(** ** Vocabulary of the statements

    The definitions of this part are not read off the source: they say what
    the properties below are about (the label of an item, the weight of a
    label, a sum of weights, a number of occurrences, the order of the
    ratings), and the theorems relate them to the code above. *)

(** The label [_extract_severity] returns for an item. It always returns
    one ([extract_returns] below), so the other branch is never taken. *)
Definition extracted (result : PyObject) : string :=
  match _extract_severity result with
  | inr severity => severity
  | inl _ => ""
  end.

(** The entry a keyed structure holds under [key], if the item is one. *)
Definition keyed_entry (item : PyObject) (key : string) : option PyValue :=
  match kind item with
  | Mapping entries => entries !! key
  | _ => None
  end.

(** The weight of a label in a table: its entry, or the fixed fallback 10. *)
Definition label_weight (table : gmap string Z) (label : string) : Z :=
  match table !! label with
  | Some w => w
  | None => 10
  end.

(** The sum, over the labels, of their weights. *)
Fixpoint sum_weights (table : gmap string Z) (labels : list string) : Z :=
  match labels with
  | [] => 0
  | label :: rest => label_weight table label + sum_weights table rest
  end.

(** How many times [label] occurs in [labels]. *)
Fixpoint occurrences (label : string) (labels : list string) : Z :=
  match labels with
  | [] => 0
  | l :: rest => (if decide (l = label) then 1 else 0) + occurrences label rest
  end.

(** The override table a caller passed, empty when absent. *)
Definition overrides (severity_weights : option (gmap string Z)) : gmap string Z :=
  default ∅ severity_weights.

(** Every weight of the table is a penalty, that is, not negative. *)
Definition nonneg_weights (table : gmap string Z) : Prop :=
  map_Forall (fun _ w => 0 <= w) table.

(** The ratings from worst to best: unsafe < needs_attention < clean. *)
Definition rating_rank (rating : string) : Z :=
  if decide (rating = "clean") then 2
  else if decide (rating = "needs_attention") then 1
  else 0.

(** The first-match rule for the rating, on the score and the number of
    critical findings. *)
Definition rating_rule (score critical : Z) : string :=
  if decide (90 <= score ∧ critical = 0) then "clean"
  else if decide (60 <= score) then "needs_attention"
  else "unsafe".

(** The accumulators before the first iteration. *)
Definition initial (weights : gmap string Z) : Acc.t :=
  Acc.mk ∅ ((fun _ => 0) <$> weights) 0.

(** [sum(d.values())] *)
Definition dict_sum (d : gmap string Z) : Z :=
  map_fold (fun _ value total => value + total) 0 d.

(** * [validate.py]

    The calls into [json] and [jsonschema] and [str.strip] are parameters
    of the model: [json_loads line] is the parsed entry, or [str(e)] for
    the [JSONDecodeError] it raises; [strip] is [str.strip]; and
    [sorted_errors entry] is
    [sorted(Draft7Validator(schema).iter_errors(entry), key=lambda e: e.path)]
    for the loaded schema. A dataset is given by the lines the iteration
    over the open file yields. *)

(** An element of [err.path]: a property name or an array index. *)
Inductive PathItem : Type :=
| PathKey (name : string)
| PathIndex (index : N).

(** [str(x)] for an element of a path *)
Definition path_item_str (x : PathItem) : string :=
  match x with
  | PathKey name => name
  | PathIndex index => pretty index
  end.

(** What [format_errors] reads of a [jsonschema.ValidationError]. *)
Record ValidationError : Type := mkValidationError {
  path : list PathItem;
  message : string;
}.

(** [sep.join(parts)] *)
Fixpoint str_join (sep : string) (parts : list string) : string :=
  match parts with
  | [] => ""
  | [part] => part
  | part :: rest => part +:+ sep +:+ str_join sep rest
  end.

(** The one-character string of a line feed. *)
Definition newline : string := String "010"%char "".

(** [".".join([str(x) for x in err.path]) or "root"] *)
Definition error_location (err : ValidationError) : string :=
  let joined := str_join "." (path_item_str <$> path err) in
  if decide (joined = "") then "root" else joined.

(** The line [format_errors] appends for [err]. *)
Definition format_error (err : ValidationError) : string :=
  "- At `" +:+ error_location err +:+ "`: " +:+ message err.

Definition format_errors (errors : list ValidationError) : string :=
  str_join newline (format_error <$> errors).

(** An entry of [results["errors"]]. *)
Module LineError.
Record t : Type := mk {
  line : Z;
  error : option string;
}.
End LineError.

(** The dict [validate_jsonl] returns. *)
Module Results.
Record t : Type := mk {
  valid : Z;
  invalid : Z;
  errors : list LineError.t;
}.
End Results.

Section validate.

Context {Entry : Type}.
Context (json_loads : string → string + Entry).
Context (strip : string → string).
Context (sorted_errors : Entry → list ValidationError).

Definition validate_entry (entry : Entry) : bool * option string :=
  let errors := sorted_errors entry in
  match errors with
  | _ :: _ => (false, Some (format_errors errors))
  | [] => (true, None)
  end.

(** [for i, line in enumerate(f, start=i): ...] *)
Fixpoint scan_lines (i : Z) (lines : list string) (results : Results.t) : Results.t :=
  match lines with
  | [] => results
  | line :: rest =>
      let line := strip line in
      if decide (line = "") then scan_lines (i + 1) rest results
      else
        match json_loads line with
        | inl e =>
            scan_lines (i + 1) rest
              (Results.mk (Results.valid results) (Results.invalid results + 1)
                 (Results.errors results
                  ++ [LineError.mk i (Some ("Malformed JSON: " +:+ e))]))
        | inr entry =>
            let '(ok, err) := validate_entry entry in
            if ok then
              scan_lines (i + 1) rest
                (Results.mk (Results.valid results + 1) (Results.invalid results)
                   (Results.errors results))
            else
              scan_lines (i + 1) rest
                (Results.mk (Results.valid results) (Results.invalid results + 1)
                   (Results.errors results ++ [LineError.mk i err]))
        end
  end.

Definition validate_jsonl (lines : list string) : Results.t :=
  scan_lines 1 lines (Results.mk 0 0 []).

(** *** Vocabulary of the statements about a dataset *)

(** The line is skipped. *)
Definition is_blank (line : string) : bool := bool_decide (strip line = "").

(** The line parses and the validator reports no error for it. *)
Definition conforms (line : string) : bool :=
  negb (is_blank line)
  && match json_loads (strip line) with
     | inl _ => false
     | inr entry => match sorted_errors entry with [] => true | _ => false end
     end.

(** The line is not skipped and does not conform. *)
Definition fails (line : string) : bool :=
  negb (is_blank line) && negb (conforms line).

(** The text recorded for a line that fails. *)
Definition failure_text (line : string) : string :=
  match json_loads (strip line) with
  | inl e => "Malformed JSON: " +:+ e
  | inr entry => format_errors (sorted_errors entry)
  end.

(** The failing lines of a dataset whose first line has number [i], with
    their numbers and texts, from top to bottom. *)
Fixpoint failures (i : Z) (lines : list string) : list LineError.t :=
  match lines with
  | [] => []
  | line :: rest =>
      (if fails line then [LineError.mk i (Some (failure_text line))] else [])
      ++ failures (i + 1) rest
  end.

End validate.

(** How many lines satisfy [P]. *)
Fixpoint count_lines (P : string → bool) (lines : list string) : Z :=
  match lines with
  | [] => 0
  | line :: rest => (if P line then 1 else 0) + count_lines P rest
  end.

(** [shift n errors]: the same entries, [n] lines further down. *)
Definition shift (n : Z) (errors : list LineError.t) : list LineError.t :=
  (fun e => LineError.mk (LineError.line e + n) (LineError.error e)) <$> errors.

(** [text] starts with [prefix]. *)
Definition starts_with (prefix text : string) : Prop :=
  ∃ rest, text = prefix +:+ rest.

(** [hasattr(item, name)] is [False]: there is no such attribute, or it is
    a property whose getter raises [AttributeError]. *)
Definition no_attribute (item : Any.Object) (name : string) : Prop :=
  Any.attributes item !! name = None
  ∨ ∃ n, Any.attributes item !! name = Some (Any.PropertyRaises (AttributeError n)).

(** * Properties *)

(** ** The exception monad *)

Lemma bind_inr {A B : Type} (m : Exc A) (f : A → Exc B) (a : A) :
  m = inr a → m ≫= f = f a.
Proof. by intros ->. Qed.

(** ** Severity extraction *)

Lemma extract_cases (result : PyObject) :
  _extract_severity result =
    inr match keyed_entry result "severity" with
        | Some v => py_str v
        | None =>
            match attributes result !! "severity" with
            | Some v => py_str v
            | None => match kind result with Str s => s | _ => "unknown" end
            end
        end.
Proof.
  unfold _extract_severity, isinstance_Mapping, py_in, py_getitem, hasattr,
    getattr, keyed_entry.
  destruct result as [k attrs]; simpl.
  destruct k as [entries|s|]; simpl.
  - destruct (entries !! "severity") as [v|] eqn:Hkey.
    + rewrite bool_decide_eq_true_2 by eauto. done.
    + rewrite bool_decide_eq_false_2 by (intros [? ?]; done).
      destruct (attrs !! "severity") as [v|] eqn:Hattr.
      * rewrite bool_decide_eq_true_2 by eauto. done.
      * rewrite bool_decide_eq_false_2 by (intros [? ?]; done). done.
  - destruct (attrs !! "severity") as [v|] eqn:Hattr.
    + rewrite bool_decide_eq_true_2 by eauto. done.
    + rewrite bool_decide_eq_false_2 by (intros [? ?]; done). done.
  - destruct (attrs !! "severity") as [v|] eqn:Hattr.
    + rewrite bool_decide_eq_true_2 by eauto. done.
    + rewrite bool_decide_eq_false_2 by (intros [? ?]; done). done.
Qed.

Lemma extract_returns (result : PyObject) :
  _extract_severity result = inr (extracted result).
Proof. unfold extracted. by rewrite extract_cases. Qed.

Lemma extracted_cases (result : PyObject) :
  extracted result =
    match keyed_entry result "severity" with
    | Some v => py_str v
    | None =>
        match attributes result !! "severity" with
        | Some v => py_str v
        | None => match kind result with Str s => s | _ => "unknown" end
        end
    end.
Proof. unfold extracted. by rewrite extract_cases. Qed.

(** ** The loop *)

Section loop.

Context (weights : gmap string Z).

Lemma loop_labels (results : list PyObject) (acc : Acc.t) :
  loop weights results acc
  = inr (foldl (accumulate weights) acc (extracted <$> results)).
Proof.
  revert acc. induction results as [|result rest IH]; intros acc; [done|].
  cbn [loop]. rewrite (bind_inr _ _ _ (extract_returns result)). apply IH.
Qed.

Lemma dict_get_weight (severity : string) :
  dict_get weights severity UNKNOWN_SEVERITY_WEIGHT = label_weight weights severity.
Proof. unfold dict_get, label_weight. by destruct (weights !! severity). Qed.

Lemma foldl_total (labels : list string) (acc : Acc.t) :
  Acc.total_penalty (foldl (accumulate weights) acc labels)
  = Acc.total_penalty acc + sum_weights weights labels.
Proof.
  revert acc. induction labels as [|label rest IH]; intros acc; cbn [foldl sum_weights].
  - lia.
  - rewrite IH. cbn. rewrite dict_get_weight. lia.
Qed.

Lemma occurrences_nonneg (label : string) (labels : list string) :
  0 <= occurrences label labels.
Proof.
  induction labels as [|l rest IH]; cbn [occurrences]; [lia|].
  destruct (decide (l = label)); lia.
Qed.

Lemma occurrences_zero (label : string) (labels : list string) :
  occurrences label labels = 0 ↔ label ∉ labels.
Proof.
  induction labels as [|l rest IH]; cbn [occurrences].
  - split; [intros _; apply not_elem_of_nil | done].
  - pose proof (occurrences_nonneg label rest) as Hpos.
    rewrite not_elem_of_cons, <- IH.
    destruct (decide (l = label)) as [->|Hne]; split.
    + lia.
    + intros [? _]. done.
    + intros. split; [congruence | lia].
    + intros [_ ?]. lia.
Qed.

Lemma lookup_add_at (c : gmap string Z) (key : string) (n : Z) (k : string) :
  add_at c key n !! k
  = if decide (key = k) then Some (default 0 (c !! k) + n) else c !! k.
Proof.
  unfold add_at. rewrite lookup_insert.
  destruct (decide (key = k)) as [->|]; done.
Qed.

Lemma foldl_counts (labels : list string) (acc : Acc.t)
    (label : string) :
  Acc.severity_counts (foldl (accumulate weights) acc labels) !! label
  = if decide (label ∈ labels)
    then Some (default 0 (Acc.severity_counts acc !! label) + occurrences label labels)
    else Acc.severity_counts acc !! label.
Proof.
  revert acc. induction labels as [|l rest IH]; intros acc; cbn [foldl occurrences].
  - rewrite decide_False by apply not_elem_of_nil. done.
  - rewrite IH. cbn [accumulate Acc.severity_counts]. rewrite lookup_add_at.
    pose proof (occurrences_zero label rest) as Hzero.
    destruct (decide (l = label)) as [->|Hne].
    + rewrite (decide_True (P := label ∈ label :: rest)) by (apply elem_of_cons; by left).
      destruct (decide (label ∈ rest)) as [Hin|Hout]; cbn [default].
      * unfold id. f_equal. lia.
      * unfold id. f_equal. apply Hzero in Hout. lia.
    + destruct (decide (label ∈ rest)) as [Hin|Hout].
      * by rewrite decide_True by (apply elem_of_cons; by right).
      * rewrite decide_False; [done|].
        rewrite not_elem_of_cons. split; [congruence | done].
Qed.

(** [Counter.get(label, 0)] after the loop is the number of occurrences. *)
Lemma counts_get (labels : list string) (label : string) :
  dict_get (Acc.severity_counts (foldl (accumulate weights) (initial weights) labels))
    label 0
  = occurrences label labels.
Proof.
  unfold dict_get. rewrite foldl_counts. cbn [initial Acc.severity_counts].
  rewrite lookup_empty. cbn [default].
  destruct (decide (label ∈ labels)) as [Hin|Hout]; cbn [default]; unfold id; [lia|].
  symmetry. by apply occurrences_zero.
Qed.

(** Two iterations of the loop can be exchanged. *)
Lemma add_at_comm (c : gmap string Z) (k1 k2 : string) (n1 n2 : Z) :
  add_at (add_at c k1 n1) k2 n2 = add_at (add_at c k2 n2) k1 n1.
Proof.
  apply map_eq; intros k. rewrite !lookup_add_at.
  destruct (decide (k1 = k)) as [->|H1], (decide (k2 = k)) as [->|H2];
    cbn [default]; unfold id; try done.
  f_equal. lia.
Qed.

Lemma accumulate_comm (acc : Acc.t) (s1 s2 : string) :
  accumulate weights (accumulate weights acc s1) s2
  = accumulate weights (accumulate weights acc s2) s1.
Proof.
  unfold accumulate; cbn [Acc.severity_counts Acc.penalty_by_severity Acc.total_penalty].
  f_equal; [apply add_at_comm | apply add_at_comm | lia].
Qed.

Lemma foldl_accumulate_perm (l1 l2 : list string) :
  l1 ≡ₚ l2 →
  ∀ acc, foldl (accumulate weights) acc l1 = foldl (accumulate weights) acc l2.
Proof.
  induction 1 as [|x l l' _ IH|x y l|l l' l'' _ IH1 _ IH2]; intros acc; cbn [foldl].
  - done.
  - apply IH.
  - by rewrite accumulate_comm.
  - by rewrite IH1.
Qed.

End loop.

(** ** The rating *)

Lemma threshold_clean : dict_getitem RATING_THRESHOLDS "clean" = inr 90.
Proof. vm_compute. reflexivity. Qed.

Lemma threshold_needs_attention :
  dict_getitem RATING_THRESHOLDS "needs_attention" = inr 60.
Proof. vm_compute. reflexivity. Qed.

Lemma rating_from_score_rule (score : Z) (counts : gmap string Z) :
  _rating_from_score score counts
  = inr (rating_rule score (dict_get counts CRITICAL_SEVERITY 0)).
Proof.
  unfold _rating_from_score, rating_rule.
  rewrite (bind_inr _ _ _ threshold_clean).
  destruct (Z.leb_spec 90 score) as [Hclean|Hclean];
    destruct (Z.eqb_spec (dict_get counts CRITICAL_SEVERITY 0) 0) as [Hcrit|Hcrit];
    cbn [andb].
  - by rewrite decide_True.
  - rewrite decide_False by (intros [_ ?]; done).
    rewrite (bind_inr _ _ _ threshold_needs_attention).
    destruct (Z.leb_spec 60 score); [|lia]. by rewrite decide_True.
  - rewrite decide_False by lia.
    rewrite (bind_inr _ _ _ threshold_needs_attention).
    destruct (Z.leb_spec 60 score); [by rewrite decide_True | by rewrite decide_False by lia].
  - rewrite decide_False by lia.
    rewrite (bind_inr _ _ _ threshold_needs_attention).
    destruct (Z.leb_spec 60 score); [by rewrite decide_True | by rewrite decide_False by lia].
Qed.

(** ** The weight table *)

Lemma or_empty_overrides (severity_weights : option (gmap string Z)) :
  or_empty severity_weights = overrides severity_weights.
Proof.
  destruct severity_weights as [d|]; [|done]. cbn.
  case_bool_decide; by subst.
Qed.

Lemma lookup_effective_weights (severity_weights : option (gmap string Z))
    (key : string) :
  effective_weights severity_weights !! key
  = match overrides severity_weights !! key with
    | Some w => Some w
    | None => DEFAULT_SEVERITY_WEIGHTS !! key
    end.
Proof.
  unfold effective_weights, dict_merge.
  rewrite or_empty_overrides, lookup_union.
  destruct (overrides severity_weights !! key), (DEFAULT_SEVERITY_WEIGHTS !! key); done.
Qed.

Lemma lookup_default_weights (key : string) :
  DEFAULT_SEVERITY_WEIGHTS !! key
  = if decide (key = "critical") then Some 50
    else if decide (key = "high") then Some 25
    else if decide (key = "medium") then Some 10
    else if decide (key = "low") then Some 5
    else if decide (key = "info") then Some 0
    else None.
Proof.
  unfold DEFAULT_SEVERITY_WEIGHTS. cbn [list_to_map foldr uncurry fst snd].
  repeat (rewrite lookup_insert; destruct (decide (_ = key)) as [<-|?];
          [done | rewrite decide_False by congruence]).
  apply lookup_empty.
Qed.


Lemma default_weights_nonneg : nonneg_weights DEFAULT_SEVERITY_WEIGHTS.
Proof.
  intros key w. rewrite lookup_default_weights.
  repeat (case_decide; [intros [= <-]; lia|]). done.
Qed.

Lemma effective_weights_nonneg (severity_weights : option (gmap string Z)) :
  nonneg_weights (overrides severity_weights) →
  nonneg_weights (effective_weights severity_weights).
Proof.
  intros Hover key w. rewrite lookup_effective_weights.
  destruct (overrides severity_weights !! key) as [w'|] eqn:Hkey.
  - intros [= <-]. by apply (Hover key).
  - apply default_weights_nonneg.
Qed.

Lemma label_weight_nonneg (table : gmap string Z) (label : string) :
  nonneg_weights table → 0 <= label_weight table label.
Proof.
  intros Htable. unfold label_weight.
  destruct (table !! label) as [w|] eqn:Hlabel; [by apply (Htable label) | lia].
Qed.

Lemma sum_weights_nonneg (table : gmap string Z) (labels : list string) :
  nonneg_weights table → 0 <= sum_weights table labels.
Proof.
  intros Htable. induction labels as [|label rest IH]; cbn [sum_weights]; [lia|].
  pose proof (label_weight_nonneg table label Htable). lia.
Qed.

Lemma sum_weights_app (table : gmap string Z) (l1 l2 : list string) :
  sum_weights table (l1 ++ l2) = sum_weights table l1 + sum_weights table l2.
Proof. induction l1 as [|label rest IH]; cbn [sum_weights app]; lia. Qed.

Lemma occurrences_app (label : string) (l1 l2 : list string) :
  occurrences label (l1 ++ l2) = occurrences label l1 + occurrences label l2.
Proof. induction l1 as [|l rest IH]; cbn [occurrences app]; lia. Qed.

(** ** The output counts *)

Lemma lookup_ensure_keys (weights out : gmap string Z) (key : string) :
  ensure_keys weights out !! key
  = match out !! key with
    | Some n => Some n
    | None => (fun _ => 0) <$> weights !! key
    end.
Proof.
  unfold ensure_keys.
  apply (map_fold_weak_ind (fun r m =>
    r !! key = match out !! key with
               | Some n => Some n
               | None => (fun _ => 0) <$> m !! key
               end)).
  - rewrite lookup_empty. by destruct (out !! key).
  - intros i x m r Hfresh IH. unfold dict_setdefault.
    destruct (decide (i = key)) as [->|Hne].
    + rewrite lookup_insert_eq. rewrite Hfresh in IH.
      destruct (r !! key) as [n|] eqn:Hr.
      * rewrite Hr, IH. by destruct (out !! key).
      * rewrite lookup_insert_eq. rewrite IH in Hr. by destruct (out !! key).
    + rewrite (lookup_insert_ne m) by done.
      destruct (r !! i); [done|]. by rewrite lookup_insert_ne.
Qed.

(** ** The whole function *)

(** The function returns, and what it returns is determined by the list of
    extracted labels. *)
Lemma aggregate_returns (results : list PyObject)
    (severity_weights : option (gmap string Z)) :
  aggregate_validator_results results severity_weights
  = inr (let weights := effective_weights severity_weights in
         let acc := foldl (accumulate weights) (initial weights) (extracted <$> results) in
         let score := Z.max 0 (MAX_SCORE - Acc.total_penalty acc) in
         Verdict.mk score
           (rating_rule score (dict_get (Acc.severity_counts acc) CRITICAL_SEVERITY 0))
           (ensure_keys weights (Acc.severity_counts acc))
           (Penalties.mk (Acc.total_penalty acc) (Acc.penalty_by_severity acc)
              weights UNKNOWN_SEVERITY_WEIGHT)
           MAX_SCORE).
Proof.
  unfold aggregate_validator_results. fold (initial (effective_weights severity_weights)).
  rewrite (bind_inr _ _ _ (loop_labels _ _ _)).
  rewrite (bind_inr _ _ _ (rating_from_score_rule _ _)).
  done.
Qed.

(** The observable summary of a run, in terms of the extracted labels. *)
Lemma aggregate_summary (results : list PyObject)
    (severity_weights : option (gmap string Z)) :
  let weights := effective_weights severity_weights in
  let labels := extracted <$> results in
  let total := sum_weights weights labels in
  ∃ v, aggregate_validator_results results severity_weights = inr v
    ∧ Verdict.hygiene_score v = Z.max 0 (100 - total)
    ∧ Verdict.rating v
      = rating_rule (Verdict.hygiene_score v) (occurrences "critical" labels)
    ∧ Penalties.total_penalty (Verdict.penalties v) = total
    ∧ ∀ key, Verdict.severity_counts v !! key
        = if decide (key ∈ labels) then Some (occurrences key labels)
          else (fun _ => 0) <$> weights !! key.
Proof.
  intros weights labels total. eexists. split; [apply aggregate_returns|].
  cbn zeta. cbn [Verdict.hygiene_score Verdict.rating Verdict.severity_counts
                 Verdict.penalties Penalties.total_penalty].
  fold weights labels. rewrite foldl_total. cbn [initial Acc.total_penalty].
  fold total. rewrite Z.add_0_l.
  repeat split.
  - unfold CRITICAL_SEVERITY. by rewrite counts_get.
  - intros key. rewrite lookup_ensure_keys, foldl_counts.
    cbn [initial Acc.severity_counts]. rewrite lookup_empty.
    by destruct (decide (key ∈ labels)).
Qed.

Lemma rank_rating_rule (score critical : Z) :
  rating_rank (rating_rule score critical)
  = if decide (90 <= score ∧ critical = 0) then 2
    else if decide (60 <= score) then 1 else 0.
Proof. unfold rating_rule. repeat case_decide; reflexivity. Qed.

(** With penalties that are not negative the score stays within [0, 100]. *)
Lemma score_bounds (results : list PyObject)
    (severity_weights : option (gmap string Z)) :
  nonneg_weights (overrides severity_weights) →
  ∃ v, aggregate_validator_results results severity_weights = inr v
    ∧ 0 <= Verdict.hygiene_score v <= 100.
Proof.
  intros Hover.
  destruct (aggregate_summary results severity_weights) as (v & Hv & Hscore & _).
  exists v. split; [done|]. rewrite Hscore.
  pose proof (sum_weights_nonneg _ (extracted <$> results)
                (effective_weights_nonneg _ Hover)).
  lia.
Qed.

(** ** The tests of the repository *)

Example test_empty_results_are_clean :
  ∃ v, aggregate_validator_results [] None = inr v
    ∧ Verdict.hygiene_score v = 100
    ∧ Verdict.rating v = "clean"
    ∧ map_Forall (fun severity _ => dict_get (Verdict.severity_counts v) severity 0 = 0)
        DEFAULT_SEVERITY_WEIGHTS.
Proof.
  eexists. split; [apply aggregate_returns|]. repeat split.
  intros severity w. rewrite lookup_default_weights.
  repeat (case_decide; [subst severity; intros _; vm_compute; reflexivity|]). done.
Qed.

Example test_mixed_severities_compute_penalty :
  ∃ v, aggregate_validator_results
         [py_dict {["severity" := PyStr "high"]};
          py_dict {["severity" := PyStr "medium"]};
          py_dict {["severity" := PyStr "low"]}] None = inr v
    ∧ Verdict.hygiene_score v = 60
    ∧ Verdict.rating v = "needs_attention"
    ∧ Verdict.severity_counts v !! "high" = Some 1
    ∧ Verdict.severity_counts v !! "medium" = Some 1
    ∧ Verdict.severity_counts v !! "low" = Some 1.
Proof. eexists. split; [apply aggregate_returns|]. vm_compute. done. Qed.

Example test_unknown_severity_uses_fallback_weight :
  ∃ v, aggregate_validator_results [py_dict {["severity" := PyStr "custom"]}] None
       = inr v
    ∧ Verdict.hygiene_score v = 100 - UNKNOWN_SEVERITY_WEIGHT
    ∧ Verdict.severity_counts v !! "custom" = Some 1
    ∧ Penalties.by_severity (Verdict.penalties v) !! "custom"
      = Some UNKNOWN_SEVERITY_WEIGHT.
Proof. eexists. split; [apply aggregate_returns|]. vm_compute. done. Qed.

Example test_multiple_high_results_become_unsafe :
  ∃ v, aggregate_validator_results
         [py_string "high"; py_string "high"; py_string "high"] None = inr v
    ∧ Verdict.rating v = "unsafe"
    ∧ Verdict.hygiene_score v < 60.
Proof. eexists. split; [apply aggregate_returns|]. vm_compute. done. Qed.

(** ** Items that run code *)

Lemma any_extract_cases (result : Any.Object) :
  Any._extract_severity result =
    match Any.keyed_entry result "severity" with
    | Some v => Any.str v
    | None =>
        match Any.attributes result !! "severity" with
        | Some (Any.Holds v) => Any.str v
        | Some (Any.PropertyRaises (AttributeError name)) =>
            inr match Any.kind result with Any.Str s => s | _ => "unknown" end
        | Some (Any.PropertyRaises e) => inl e
        | None =>
            inr match Any.kind result with Any.Str s => s | _ => "unknown" end
        end
    end.
Proof.
  assert (∀ k attrs,
    Any.hasattr (Any.mkObject k attrs) "severity"
      ≫= (fun has_severity : bool =>
            if has_severity
            then v ← Any.getattr (Any.mkObject k attrs) "severity"; Any.str v
            else match k with Any.Str s => mret s | _ => mret "unknown" end)
    = match attrs !! "severity" with
      | Some (Any.Holds v) => Any.str v
      | Some (Any.PropertyRaises (AttributeError name)) =>
          inr match k with Any.Str s => s | _ => "unknown" end
      | Some (Any.PropertyRaises e) => inl e
      | None => inr match k with Any.Str s => s | _ => "unknown" end
      end) as Hattr.
  { intros k attrs. unfold Any.hasattr, Any.getattr. cbn [Any.attributes].
    destruct (attrs !! "severity") as [[v|[]]|]; try done; by destruct k. }
  unfold Any._extract_severity, Any.isinstance_Mapping, Any.py_in, Any.py_getitem,
    Any.keyed_entry.
  destruct result as [k attrs]. cbn [Any.kind Any.attributes].
  destruct k as [entries|s|]; cbn [andb]; try apply Hattr.
  destruct (entries !! "severity") as [v|] eqn:Hkey.
  - rewrite bool_decide_eq_true_2 by eauto. done.
  - rewrite bool_decide_eq_false_2 by (intros [? ?]; done). apply Hattr.
Qed.

(** On data the two embeddings of [_extract_severity] agree. *)
Lemma extract_of_object (o : PyObject) :
  Any._extract_severity (of_object o) = _extract_severity o.
Proof.
  rewrite any_extract_cases, extract_cases.
  unfold Any.keyed_entry, keyed_entry, of_object. destruct o as [k attrs].
  cbn [Any.kind Any.attributes kind attributes].
  assert (match (fun v => Any.Holds (Any.Data v)) <$> attrs !! "severity" with
          | Some (Any.Holds v) => Any.str v
          | Some (Any.PropertyRaises (AttributeError name)) =>
              inr match k with Str s => s | _ => "unknown" end
          | Some (Any.PropertyRaises e) => inl e
          | None => inr match k with Str s => s | _ => "unknown" end
          end
          = inr match attrs !! "severity" with
                | Some v => py_str v
                | None => match k with Str s => s | _ => "unknown" end
                end) as Hattr
    by (by destruct (attrs !! "severity")).
  destruct k as [entries|s|]; rewrite ?lookup_fmap.
  - destruct (entries !! "severity") as [v|]; [done|]. exact Hattr.
  - exact Hattr.
  - exact Hattr.
Qed.

Section any_loop.

Context (weights : gmap string Z).





End any_loop.





(** ** Claims *)

(** C1. For every sequence of result items and every override table,
    present or absent, the function returns a verdict whose
    [hygiene_score] is [max(0, 100 - total)], where [total] is the sum over
    the items of the weight of the extracted severity label (its entry in
    the merged table, or the fallback 10 when it has none), and whose
    [penalties.total_penalty] is that same [total]. *)
Theorem hygiene_score_is_clamped_penalty_sum
    (results : list PyObject) (severity_weights : option (gmap string Z)) :
  ∃ v, aggregate_validator_results results severity_weights = inr v
    ∧ Verdict.hygiene_score v
      = Z.max 0 (100 - sum_weights (effective_weights severity_weights)
                         (extracted <$> results))
    ∧ Penalties.total_penalty (Verdict.penalties v)
      = sum_weights (effective_weights severity_weights) (extracted <$> results).
Proof.
  destruct (aggregate_summary results severity_weights)
    as (v & Hv & Hscore & _ & Htotal & _).
  by exists v.
Qed.

(** C2, amended. For every input the rating follows the first-match rule on
    the hygiene score and the number of items whose extracted severity is
    "critical": "clean" iff score >= 90 and that number is 0; otherwise
    "needs_attention" iff score >= 60; otherwise "unsafe". A single item
    with severity "critical" under the default weights yields score 50 and
    rating "unsafe" (50 is below the 60 of "needs_attention"), not
    "clean". *)
Theorem rating_first_match_rule :
  (∀ (results : list PyObject) (severity_weights : option (gmap string Z)),
     ∃ v, aggregate_validator_results results severity_weights = inr v
       ∧ let score := Verdict.hygiene_score v in
         let critical := occurrences "critical" (extracted <$> results) in
         (Verdict.rating v = "clean" ↔ 90 <= score ∧ critical = 0)
         ∧ (Verdict.rating v = "needs_attention"
            ↔ ¬ (90 <= score ∧ critical = 0) ∧ 60 <= score)
         ∧ (Verdict.rating v = "unsafe"
            ↔ ¬ (90 <= score ∧ critical = 0) ∧ ¬ 60 <= score))
  ∧ (∀ item : PyObject, extracted item = "critical" →
       ∃ v, aggregate_validator_results [item] None = inr v
         ∧ Verdict.hygiene_score v = 50
         ∧ Verdict.rating v = "unsafe"
         ∧ Verdict.rating v ≠ "clean").
Proof.
  split.
  - intros results severity_weights.
    destruct (aggregate_summary results severity_weights)
      as (v & Hv & _ & Hrating & _).
    exists v. split; [done|]. cbn zeta. rewrite Hrating. unfold rating_rule.
    repeat case_decide; (split; [|split]); split; intros; try done; tauto.
  - intros item Hitem.
    destruct (aggregate_summary [item] None) as (v & Hv & Hscore & Hrating & _).
    exists v. split; [done|].
    assert (Verdict.hygiene_score v = 50) as H50.
    { rewrite Hscore. cbn [fmap list_fmap sum_weights]. rewrite Hitem.
      vm_compute. reflexivity. }
    assert (Verdict.rating v = "unsafe") as Hunsafe.
    { rewrite Hrating, H50. reflexivity. }
    repeat split; [done | done |]. rewrite Hunsafe. done.
Qed.

Lemma rating_first_match_rule_witness :
  extracted (py_dict {["severity" := PyStr "critical"]}) = "critical"
  ∧ ∃ v, aggregate_validator_results
           [py_dict {["severity" := PyStr "critical"]}] None = inr v
       ∧ Verdict.hygiene_score v = 50
       ∧ Verdict.rating v = "unsafe"
       ∧ Verdict.rating v ≠ "clean".
Proof.
  split; [reflexivity|].
  apply (proj2 rating_first_match_rule). reflexivity.
Defined.

(** C2 as stated fails: the single critical item is not rated
    "needs_attention". *)
Lemma single_critical_is_not_needs_attention :
  ¬ ∃ v, aggregate_validator_results
           [py_dict {["severity" := PyStr "critical"]}] None = inr v
       ∧ Verdict.hygiene_score v = 50
       ∧ Verdict.rating v = "needs_attention".
Proof.
  intros (v & Hv & _ & Hrating).
  rewrite aggregate_returns in Hv. injection Hv as <-.
  vm_compute in Hrating. discriminate.
Qed.

(** C3, amended. [_extract_severity] resolves in a fixed first-match
    order: (1) a mapping with a "severity" entry gives [str] of that entry;
    (2) otherwise an item with a [severity] attribute gives [str] of the
    attribute; (3) otherwise a string is returned as it is; (4) otherwise
    the label is "unknown". It returns a label whenever reading the
    severity and converting it return, as they do for every item that is
    data; it raises when [str] of the severity raises or when a [severity]
    property raises anything but [AttributeError], which counts as having
    no such attribute. *)
Theorem extract_severity_resolution (item : Any.Object) :
  (∀ v, Any.keyed_entry item "severity" = Some (Any.Data v) →
        Any._extract_severity item = inr (py_str v))
  ∧ (Any.keyed_entry item "severity" = None →
     ∀ v, Any.attributes item !! "severity" = Some (Any.Holds (Any.Data v)) →
          Any._extract_severity item = inr (py_str v))
  ∧ (Any.keyed_entry item "severity" = None →
     no_attribute item "severity" →
     ∀ s, Any.kind item = Any.Str s → Any._extract_severity item = inr s)
  ∧ (Any.keyed_entry item "severity" = None →
     no_attribute item "severity" →
     (∀ s, Any.kind item ≠ Any.Str s) →
     Any._extract_severity item = inr "unknown")
  ∧ (∀ e, Any.keyed_entry item "severity" = Some (Any.StrRaises e) →
          Any._extract_severity item = inl e)
  ∧ (Any.keyed_entry item "severity" = None →
     ∀ e, Any.attributes item !! "severity" = Some (Any.Holds (Any.StrRaises e)) →
          Any._extract_severity item = inl e)
  ∧ (Any.keyed_entry item "severity" = None →
     ∀ e, Any.attributes item !! "severity" = Some (Any.PropertyRaises e) →
          (∀ n, e ≠ AttributeError n) →
          Any._extract_severity item = inl e)
  ∧ (∀ o : PyObject, ∃ label, Any._extract_severity (of_object o) = inr label).
Proof.
  rewrite any_extract_cases.
  split; [by intros v ->|]. split; [by intros -> v ->|].
  split; [|split; [|split; [|split; [|split]]]].
  - intros -> [-> | [n ->]] s ->; done.
  - intros -> Hnone Hstr.
    assert (match Any.kind item with Any.Str s => s | _ => "unknown" end
            = "unknown") as ->.
    { destruct (Any.kind item) as [?|s|]; [done| |done]. by destruct (Hstr s). }
    by destruct Hnone as [-> | [n ->]].
  - by intros e ->.
  - by intros -> e ->.
  - intros -> e -> Hother. destruct e as [key|n| ]; [done| |done].
    by destruct (Hother n).
  - intros o. rewrite extract_of_object, extract_returns. eauto.
Qed.

Lemma extract_severity_resolution_witness :
  Any._extract_severity
    (Any.mkObject (Any.Mapping {["severity" := Any.Data (PyStr "high")]})
       {["severity" := Any.PropertyRaises TypeError]})
  = inr "high"
  ∧ Any._extract_severity
      (Any.mkObject (Any.Mapping ∅) {["severity" := Any.Holds (Any.Data PyNone)]})
    = inr "None"
  ∧ Any._extract_severity
      (Any.mkObject (Any.Str "low")
         {["severity" := Any.PropertyRaises (AttributeError "severity")]})
    = inr "low"
  ∧ Any._extract_severity (Any.mkObject Any.Other ∅) = inr "unknown"
  ∧ Any._extract_severity
      (Any.mkObject Any.Other {["severity" := Any.PropertyRaises (KeyError "severity")]})
    = inl (KeyError "severity").
Proof.
  split; [|split; [|split; [|split]]].
  - destruct (extract_severity_resolution
                (Any.mkObject (Any.Mapping {["severity" := Any.Data (PyStr "high")]})
                   {["severity" := Any.PropertyRaises TypeError]}))
      as (Hkeyed & _).
    apply (Hkeyed (PyStr "high")). reflexivity.
  - destruct (extract_severity_resolution
                (Any.mkObject (Any.Mapping ∅)
                   {["severity" := Any.Holds (Any.Data PyNone)]}))
      as (_ & Hattr & _).
    apply (Hattr eq_refl PyNone). reflexivity.
  - destruct (extract_severity_resolution
                (Any.mkObject (Any.Str "low")
                   {["severity" := Any.PropertyRaises (AttributeError "severity")]}))
      as (_ & _ & Hstr & _).
    apply (Hstr eq_refl); [|reflexivity]. right. by exists "severity".
  - destruct (extract_severity_resolution (Any.mkObject Any.Other ∅))
      as (_ & _ & _ & Hother & _).
    apply (Hother eq_refl); [by left|]. intros s. discriminate.
  - destruct (extract_severity_resolution
                (Any.mkObject Any.Other
                   {["severity" := Any.PropertyRaises (KeyError "severity")]}))
      as (_ & _ & _ & _ & _ & _ & Hraises & _).
    apply (Hraises eq_refl); [reflexivity|]. intros n. discriminate.
Defined.

(** C3 as stated fails: an instance whose [severity] property raises
    [KeyError] (a getter that subscripts a dict without the key) makes
    [hasattr] raise, and a mapping whose "severity" entry has a [__str__]
    that raises makes [str] raise; in both cases no label is returned. *)
Lemma extraction_can_raise :
  (¬ ∃ label,
       Any._extract_severity
         (Any.mkObject Any.Other
            {["severity" := Any.PropertyRaises (KeyError "severity")]})
       = inr label)
  ∧ (¬ ∃ label,
         Any._extract_severity
           (Any.mkObject (Any.Mapping {["severity" := Any.StrRaises TypeError]}) ∅)
         = inr label).
Proof.
  split; intros [label Hlabel]; vm_compute in Hlabel; discriminate.
Qed.

(** C4. The effective weight table is the key-wise merge of the default
    table {critical:50, high:25, medium:10, low:5, info:0} with the caller's
    override table: the override wins per key and the defaults it does not
    name survive. An item whose label the merged table does not hold is
    charged the fixed fallback 10 by the loop, whatever the table contains:
    with the weight of "medium" overridden to [w], an item labelled "medium"
    is charged [w] and an item with a label outside the table is still
    charged 10. *)
Theorem effective_weights_merge_and_fallback :
  (∀ key, DEFAULT_SEVERITY_WEIGHTS !! key
          = if decide (key = "critical") then Some 50
            else if decide (key = "high") then Some 25
            else if decide (key = "medium") then Some 10
            else if decide (key = "low") then Some 5
            else if decide (key = "info") then Some 0
            else None)
  ∧ (∀ (severity_weights : option (gmap string Z)) (key : string),
       effective_weights severity_weights !! key
       = match overrides severity_weights !! key with
         | Some w => Some w
         | None => DEFAULT_SEVERITY_WEIGHTS !! key
         end)
  ∧ (∀ (before after : list PyObject) (item : PyObject)
       (severity_weights : option (gmap string Z)),
       ∃ v v',
         aggregate_validator_results (before ++ after) severity_weights = inr v
         ∧ aggregate_validator_results (before ++ item :: after) severity_weights
           = inr v'
         ∧ Penalties.total_penalty (Verdict.penalties v')
           = Penalties.total_penalty (Verdict.penalties v)
             + match effective_weights severity_weights !! extracted item with
               | Some w => w
               | None => 10
               end)
  ∧ (∀ (w : Z) (before after : list PyObject) (item : PyObject),
       ∃ v v',
         aggregate_validator_results (before ++ after) (Some {["medium" := w]})
         = inr v
         ∧ aggregate_validator_results (before ++ item :: after)
             (Some {["medium" := w]})
           = inr v'
         ∧ (extracted item = "medium" →
            Penalties.total_penalty (Verdict.penalties v')
            = Penalties.total_penalty (Verdict.penalties v) + w)
         ∧ (extracted item ∉ dom (effective_weights (Some {["medium" := w]})) →
            Penalties.total_penalty (Verdict.penalties v')
            = Penalties.total_penalty (Verdict.penalties v) + 10))
  ∧ (∀ (results : list PyObject) (severity_weights : option (gmap string Z)),
       ∃ v, aggregate_validator_results results severity_weights = inr v
         ∧ Penalties.weights (Verdict.penalties v)
           = effective_weights severity_weights
         ∧ Penalties.unknown_weight (Verdict.penalties v) = 10).
Proof.
  assert (∀ (before after : list PyObject) (item : PyObject)
            (severity_weights : option (gmap string Z)),
            ∃ v v',
              aggregate_validator_results (before ++ after) severity_weights = inr v
              ∧ aggregate_validator_results (before ++ item :: after)
                  severity_weights = inr v'
              ∧ Penalties.total_penalty (Verdict.penalties v')
                = Penalties.total_penalty (Verdict.penalties v)
                  + label_weight (effective_weights severity_weights)
                      (extracted item)) as Hcharge.
  { intros before after item severity_weights.
    destruct (aggregate_summary (before ++ after) severity_weights)
      as (v & Hv & _ & _ & Htotal & _).
    destruct (aggregate_summary (before ++ item :: after) severity_weights)
      as (v' & Hv' & _ & _ & Htotal' & _).
    exists v, v'. split; [done|]. split; [done|].
    rewrite Htotal, Htotal', !fmap_app, fmap_cons, !sum_weights_app.
    cbn [sum_weights]. lia. }
  split; [apply lookup_default_weights|].
  split; [apply lookup_effective_weights|].
  split; [|split].
  - intros before after item severity_weights.
    destruct (Hcharge before after item severity_weights)
      as (v & v' & Hv & Hv' & Htotal).
    by exists v, v'.
  - intros w before after item.
    destruct (Hcharge before after item (Some {["medium" := w]}))
      as (v & v' & Hv & Hv' & Htotal).
    exists v, v'. split; [done|]. split; [done|].
    unfold label_weight in Htotal. split.
    + intros Hmedium. rewrite Htotal, Hmedium, lookup_effective_weights.
      change (overrides (Some {["medium" := w]}))
        with ({["medium" := w]} : gmap string Z).
      by rewrite lookup_singleton_eq.
    + intros Hout. apply not_elem_of_dom in Hout. by rewrite Htotal, Hout.
  - intros results severity_weights. eexists.
    split; [apply aggregate_returns|]. done.
Qed.

(** C5, at the input where the code leaves the documented range: with the
    override table {"low": -5}, the single item "low" gives a total penalty
    of -5 and a hygiene score of 105, above 100. *)
Theorem negative_weight_score_exceeds_max :
  ∃ v, aggregate_validator_results [py_string "low"] (Some {["low" := -5]}) = inr v
    ∧ Penalties.total_penalty (Verdict.penalties v) = -5
    ∧ Verdict.hygiene_score v = 105
    ∧ ¬ (0 <= Verdict.hygiene_score v <= 100).
Proof.
  eexists. split; [apply aggregate_returns|]. vm_compute.
  repeat split; intros [_ Hle]; by apply Hle.
Qed.

(** C6. Aggregation does not depend on the order of the items: two
    sequences that are permutations of one another, with the same override
    table, give the same verdict (score, rating, counts and penalties). *)
Theorem aggregation_commutative
    (results results' : list PyObject) (severity_weights : option (gmap string Z)) :
  results ≡ₚ results' →
  aggregate_validator_results results severity_weights
  = aggregate_validator_results results' severity_weights.
Proof.
  intros Hperm. rewrite !aggregate_returns. cbn zeta.
  assert (extracted <$> results ≡ₚ extracted <$> results') as Hlabels
    by (by apply fmap_Permutation).
  by rewrite (foldl_accumulate_perm _ _ _ Hlabels).
Qed.

Lemma aggregation_commutative_witness :
  [py_dict {["severity" := PyStr "high"]}; py_string "low"; py_instance ∅]
    ≡ₚ [py_string "low"; py_instance ∅; py_dict {["severity" := PyStr "high"]}]
  ∧ aggregate_validator_results
      [py_dict {["severity" := PyStr "high"]}; py_string "low"; py_instance ∅]
      (Some {["low" := 7]})
    = aggregate_validator_results
        [py_string "low"; py_instance ∅; py_dict {["severity" := PyStr "high"]}]
        (Some {["low" := 7]}).
Proof.
  assert ([py_dict {["severity" := PyStr "high"]}; py_string "low"; py_instance ∅]
            ≡ₚ [py_string "low"; py_instance ∅;
                py_dict {["severity" := PyStr "high"]}]) as Hperm
    by apply (Permutation_cons_append [py_string "low"; py_instance ∅]).
  split; [exact Hperm|].
  exact (aggregation_commutative _ _ (Some {["low" := 7]}) Hperm).
Defined.

(** X21. With an override table whose weights are not negative,
    aggregation is monotone in findings: inserting one more result item
    anywhere in the sequence gives a hygiene score no greater than before
    and a rating no closer to "clean" in the order
    clean > needs_attention > unsafe. *)
Theorem monotone_in_findings
    (before after : list PyObject) (item : PyObject)
    (severity_weights : option (gmap string Z)) :
  nonneg_weights (overrides severity_weights) →
  ∃ v v',
    aggregate_validator_results (before ++ after) severity_weights = inr v
    ∧ aggregate_validator_results (before ++ item :: after) severity_weights = inr v'
    ∧ Verdict.hygiene_score v' <= Verdict.hygiene_score v
    ∧ rating_rank (Verdict.rating v') <= rating_rank (Verdict.rating v).
Proof.
  intros Hover.
  destruct (aggregate_summary (before ++ after) severity_weights)
    as (v & Hv & Hscore & Hrating & _).
  destruct (aggregate_summary (before ++ item :: after) severity_weights)
    as (v' & Hv' & Hscore' & Hrating' & _).
  exists v, v'. split; [done|]. split; [done|].
  rewrite fmap_app in Hscore, Hrating, Hscore', Hrating'.
  rewrite fmap_cons in Hscore', Hrating'.
  rewrite sum_weights_app in Hscore, Hscore'.
  rewrite occurrences_app in Hrating, Hrating'.
  cbn [sum_weights] in Hscore'. cbn [occurrences] in Hrating'.
  pose proof (label_weight_nonneg _ (extracted item)
                (effective_weights_nonneg _ Hover)) as Hweight.
  pose proof (occurrences_nonneg "critical" (extracted <$> before)).
  pose proof (occurrences_nonneg "critical" (extracted <$> after)).
  assert (Verdict.hygiene_score v' <= Verdict.hygiene_score v) as Hle
    by (rewrite Hscore, Hscore'; lia).
  split; [done|].
  rewrite Hrating, Hrating', !rank_rating_rule.
  destruct (decide (extracted item = "critical")); repeat case_decide; lia.
Qed.

Lemma monotone_in_findings_witness :
  nonneg_weights (overrides (Some {["low" := 7]}))
  ∧ ∃ v v',
      aggregate_validator_results
        ([py_string "low"] ++ [py_string "info"]) (Some {["low" := 7]}) = inr v
      ∧ aggregate_validator_results
          ([py_string "low"] ++ py_instance ∅ :: [py_string "info"])
          (Some {["low" := 7]}) = inr v'
      ∧ Verdict.hygiene_score v' <= Verdict.hygiene_score v
      ∧ rating_rank (Verdict.rating v') <= rating_rank (Verdict.rating v).
Proof.
  assert (nonneg_weights (overrides (Some {["low" := 7]}))) as Hover.
  { apply map_Forall_singleton. lia. }
  split; [exact Hover|].
  exact (monotone_in_findings [py_string "low"] [py_string "info"]
           (py_instance ∅) (Some {["low" := 7]}) Hover).
Defined.

(** C7, at the input where the code breaks it: with the override table
    {"low": -5}, which the code accepts unchecked, adding the item "low" to
    the empty sequence raises the hygiene score from 100 to 105, out of the
    documented range [0, 100]. *)
Theorem negative_weight_breaks_monotonicity :
  ∃ v v',
    aggregate_validator_results [] (Some {["low" := -5]}) = inr v
    ∧ aggregate_validator_results [py_string "low"] (Some {["low" := -5]}) = inr v'
    ∧ Verdict.hygiene_score v = 100
    ∧ Verdict.hygiene_score v' = 105
    ∧ ¬ (Verdict.hygiene_score v' <= Verdict.hygiene_score v).
Proof.
  eexists _, _. split; [apply aggregate_returns|]. split; [apply aggregate_returns|].
  vm_compute. split; [done|]. split; [done|]. intros Hle. by apply Hle.
Qed.




(** C9. The keys of the returned [severity_counts] are exactly the keys of
    the effective weight table together with the labels observed: every
    observed label maps to its number of occurrences, and every key of the
    weight table that was never observed is present with value 0. *)
Theorem severity_counts_keys_and_values
    (results : list PyObject) (severity_weights : option (gmap string Z)) :
  ∃ v, aggregate_validator_results results severity_weights = inr v
    ∧ let labels := extracted <$> results in
      let weights := effective_weights severity_weights in
      dom (Verdict.severity_counts v) = dom weights ∪ list_to_set labels
      ∧ dom weights ⊆ dom (Verdict.severity_counts v)
      ∧ (∀ label, label ∈ labels →
           Verdict.severity_counts v !! label = Some (occurrences label labels)
           ∧ 1 <= occurrences label labels)
      ∧ (∀ key, key ∈ dom weights → key ∉ labels →
           Verdict.severity_counts v !! key = Some 0).
Proof.
  destruct (aggregate_summary results severity_weights) as (v & Hv & _ & _ & _ & Hcounts).
  exists v. split; [done|]. cbn zeta.
  assert (dom (Verdict.severity_counts v)
          = dom (effective_weights severity_weights)
            ∪ list_to_set (extracted <$> results)) as Hdom.
  { apply set_eq; intros key.
    rewrite elem_of_union, !elem_of_dom, elem_of_list_to_set, Hcounts.
    destruct (decide (key ∈ extracted <$> results)) as [Hin|Hout].
    - split; [by right | by eauto].
    - rewrite fmap_is_Some. tauto. }
  split; [done|]. split; [rewrite Hdom; apply union_subseteq_l|]. split.
  - intros label Hin. rewrite Hcounts, decide_True by done. split; [done|].
    pose proof (occurrences_nonneg label (extracted <$> results)).
    destruct (decide (occurrences label (extracted <$> results) = 0)) as [Hzero|?]; [|lia].
    by apply occurrences_zero in Hzero.
  - intros key [w Hw]%elem_of_dom Hout.
    rewrite Hcounts, decide_False by done. by rewrite Hw.
Qed.

(** C10, amended. An item of none of the three accepted shapes is not
    free of penalty: it is counted under the label "unknown", which the
    default weight table does not hold, and is charged the fallback weight
    10, or the weight the caller's override table gives to "unknown" when
    it has one. Without such an override, each unrecognized item raises the
    total penalty by 10 and lowers the hygiene score by 10, down to the
    floor of 0: the score drops by exactly 10 when it was at least 10
    before. *)
Theorem unrecognized_item_charged_fallback (item : PyObject) :
  keyed_entry item "severity" = None →
  attributes item !! "severity" = None →
  (∀ s, kind item ≠ Str s) →
  _extract_severity item = inr "unknown"
  ∧ DEFAULT_SEVERITY_WEIGHTS !! "unknown" = None
  ∧ ∀ (before after : list PyObject) (severity_weights : option (gmap string Z)),
      ∃ v v',
        aggregate_validator_results (before ++ after) severity_weights = inr v
        ∧ aggregate_validator_results (before ++ item :: after) severity_weights
          = inr v'
        ∧ dict_get (Verdict.severity_counts v') "unknown" 0
          = dict_get (Verdict.severity_counts v) "unknown" 0 + 1
        ∧ Penalties.total_penalty (Verdict.penalties v')
          = Penalties.total_penalty (Verdict.penalties v)
            + match overrides severity_weights !! "unknown" with
              | Some w => w
              | None => 10
              end
        ∧ (overrides severity_weights !! "unknown" = None →
           Verdict.hygiene_score v' = Z.max 0 (Verdict.hygiene_score v - 10)
           ∧ (10 <= Verdict.hygiene_score v →
              Verdict.hygiene_score v' = Verdict.hygiene_score v - 10)).
Proof.
  intros Hkey Hattr Hstr.
  assert (extracted item = "unknown") as Hitem.
  { rewrite extracted_cases, Hkey, Hattr.
    destruct (kind item) as [?|s|]; [done| |done]. by destruct (Hstr s). }
  split; [by rewrite extract_returns, Hitem|].
  split; [by rewrite lookup_default_weights|].
  intros before after severity_weights.
  destruct (aggregate_summary (before ++ after) severity_weights)
    as (v & Hv & Hscore & _ & Htotal & Hcounts).
  destruct (aggregate_summary (before ++ item :: after) severity_weights)
    as (v' & Hv' & Hscore' & _ & Htotal' & Hcounts').
  exists v, v'. split; [done|]. split; [done|].
  rewrite fmap_app in Hscore, Htotal, Hcounts, Hscore', Htotal', Hcounts'.
  rewrite fmap_cons, Hitem in Hscore', Htotal', Hcounts'.
  rewrite sum_weights_app in Hscore, Htotal, Hscore', Htotal'.
  cbn [sum_weights] in Hscore', Htotal'.
  assert (label_weight (effective_weights severity_weights) "unknown"
          = match overrides severity_weights !! "unknown" with
            | Some w => w
            | None => 10
            end) as Hcharged.
  { unfold label_weight. rewrite lookup_effective_weights, lookup_default_weights.
    by destruct (overrides severity_weights !! "unknown"). }
  rewrite Hcharged in Hscore', Htotal'.
  split; [|split].
  - unfold dict_get. rewrite Hcounts, Hcounts'.
    rewrite decide_True by (rewrite elem_of_app, elem_of_cons; tauto).
    rewrite !occurrences_app. cbn [occurrences]. rewrite decide_True by done.
    pose proof (occurrences_zero "unknown"
                  ((extracted <$> before) ++ (extracted <$> after))) as Hzero.
    rewrite occurrences_app in Hzero.
    destruct (decide ("unknown" ∈ ((extracted <$> before) ++ (extracted <$> after))%list))
      as [Hin|Hout].
    + cbn [default]. unfold id. lia.
    + apply Hzero in Hout.
      destruct (effective_weights severity_weights !! "unknown");
        cbn [fmap option_fmap option_map default]; unfold id; lia.
  - rewrite Htotal, Htotal'. lia.
  - intros Hnone. rewrite Hnone in Hscore'. rewrite Hscore, Hscore'. lia.
Qed.

Lemma unrecognized_item_charged_fallback_witness :
  keyed_entry (py_instance ∅) "severity" = None
  ∧ attributes (py_instance ∅) !! "severity" = None
  ∧ (∀ s, kind (py_instance ∅) ≠ Str s)
  ∧ _extract_severity (py_instance ∅) = inr "unknown".
Proof.
  assert (∀ s, kind (py_instance ∅) ≠ Str s) as Hstr by (intros s; discriminate).
  split; [reflexivity|]. split; [reflexivity|]. split; [exact Hstr|].
  exact (proj1 (unrecognized_item_charged_fallback (py_instance ∅)
                  eq_refl eq_refl Hstr)).
Defined.

(** C10 as stated fails where the score is already at its floor: after two
    critical items the score is 0, and it is still 0, not 10 less, after one
    more unrecognized item. *)
Lemma unrecognized_item_at_floor_keeps_score :
  ¬ ∃ v v',
      aggregate_validator_results
        [py_string "critical"; py_string "critical"] None = inr v
      ∧ aggregate_validator_results
          [py_string "critical"; py_string "critical"; py_instance ∅] None = inr v'
      ∧ Verdict.hygiene_score v' = Verdict.hygiene_score v - 10.
Proof.
  intros (v & v' & Hv & Hv' & Hlower).
  rewrite aggregate_returns in Hv, Hv'. injection Hv as <-. injection Hv' as <-.
  vm_compute in Hlower. discriminate.
Qed.

(** * Further properties of the aggregation *)

(** ** Sums over a dict *)

Lemma dict_sum_empty : dict_sum ∅ = 0.
Proof. apply map_fold_empty. Qed.

Lemma dict_sum_insert_fresh (d : gmap string Z) (key : string) (value : Z) :
  d !! key = None → dict_sum (<[key := value]> d) = value + dict_sum d.
Proof.
  intros Hfresh. unfold dict_sum.
  rewrite map_fold_insert_L; [done | intros; lia | done].
Qed.

Lemma dict_sum_insert (d : gmap string Z) (key : string) (value : Z) :
  dict_sum (<[key := value]> d) = dict_sum d - default 0 (d !! key) + value.
Proof.
  destruct (d !! key) as [old|] eqn:Hkey; cbn [default]; unfold id.
  - rewrite <- (insert_delete_eq d).
    rewrite <- (insert_delete_id d key old) at 2 by done.
    rewrite !dict_sum_insert_fresh by apply lookup_delete_eq. lia.
  - rewrite dict_sum_insert_fresh by done. lia.
Qed.

Lemma dict_sum_add_at (d : gmap string Z) (key : string) (n : Z) :
  dict_sum (add_at d key n) = dict_sum d + n.
Proof. unfold add_at. rewrite dict_sum_insert. lia. Qed.

Lemma dict_sum_zeros (weights : gmap string Z) :
  dict_sum ((fun _ => 0) <$> weights) = 0.
Proof.
  induction weights as [|key w weights Hfresh IH] using map_ind.
  - rewrite fmap_empty. apply dict_sum_empty.
  - rewrite fmap_insert, dict_sum_insert_fresh, IH; [done|].
    by rewrite lookup_fmap, Hfresh.
Qed.

Lemma dict_sum_ensure_keys (weights out : gmap string Z) :
  dict_sum (ensure_keys weights out) = dict_sum out.
Proof.
  unfold ensure_keys.
  apply (map_fold_weak_ind (fun r _ => dict_sum r = dict_sum out)); [done|].
  intros key w m r _ IH. unfold dict_setdefault.
  destruct (r !! key) eqn:Hkey; [done|].
  rewrite dict_sum_insert_fresh by done. lia.
Qed.

(** ** The accumulators, label by label *)

Section accumulators.

Context (weights : gmap string Z).

Lemma foldl_subtotals (labels : list string) (acc : Acc.t) (label : string) :
  Acc.penalty_by_severity (foldl (accumulate weights) acc labels) !! label
  = if decide (label ∈ labels)
    then Some (default 0 (Acc.penalty_by_severity acc !! label)
               + occurrences label labels * label_weight weights label)
    else Acc.penalty_by_severity acc !! label.
Proof.
  revert acc. induction labels as [|l rest IH]; intros acc; cbn [foldl occurrences].
  - rewrite decide_False by apply not_elem_of_nil. done.
  - rewrite IH. cbn [accumulate Acc.penalty_by_severity].
    rewrite lookup_add_at, dict_get_weight.
    pose proof (occurrences_zero label rest) as Hzero.
    destruct (decide (l = label)) as [->|Hne].
    + rewrite (decide_True (P := label ∈ label :: rest)) by (apply elem_of_cons; by left).
      destruct (decide (label ∈ rest)) as [Hin|Hout]; cbn [default]; unfold id.
      * f_equal. lia.
      * f_equal. apply Hzero in Hout. rewrite Hout. lia.
    + destruct (decide (label ∈ rest)) as [Hin|Hout].
      * by rewrite decide_True by (apply elem_of_cons; by right).
      * rewrite decide_False; [done|].
        rewrite not_elem_of_cons. split; [congruence | done].
Qed.

Lemma foldl_sum_counts (labels : list string) (acc : Acc.t) :
  dict_sum (Acc.severity_counts (foldl (accumulate weights) acc labels))
  = dict_sum (Acc.severity_counts acc) + Z.of_nat (length labels).
Proof.
  revert acc. induction labels as [|l rest IH]; intros acc; cbn [foldl length].
  - lia.
  - rewrite IH. cbn [accumulate Acc.severity_counts]. rewrite dict_sum_add_at. lia.
Qed.

Lemma foldl_sum_subtotals (labels : list string) (acc : Acc.t) :
  dict_sum (Acc.penalty_by_severity (foldl (accumulate weights) acc labels))
  - Acc.total_penalty (foldl (accumulate weights) acc labels)
  = dict_sum (Acc.penalty_by_severity acc) - Acc.total_penalty acc.
Proof.
  revert acc. induction labels as [|l rest IH]; intros acc; cbn [foldl]; [done|].
  rewrite IH. cbn [accumulate Acc.penalty_by_severity Acc.total_penalty].
  rewrite dict_sum_add_at. lia.
Qed.

End accumulators.

(** What [d.get(label, 0)] reads in the two returned breakdowns. *)
Lemma aggregate_breakdown (results : list PyObject)
    (severity_weights : option (gmap string Z)) :
  let weights := effective_weights severity_weights in
  let labels := extracted <$> results in
  ∃ v, aggregate_validator_results results severity_weights = inr v
    ∧ Penalties.total_penalty (Verdict.penalties v) = sum_weights weights labels
    ∧ (∀ label, Verdict.severity_counts v !! label
         = if decide (label ∈ labels) then Some (occurrences label labels)
           else (fun _ => 0) <$> weights !! label)
    ∧ (∀ label, Penalties.by_severity (Verdict.penalties v) !! label
         = if decide (label ∈ labels)
           then Some (occurrences label labels * label_weight weights label)
           else (fun _ => 0) <$> weights !! label)
    ∧ (∀ label, dict_get (Verdict.severity_counts v) label 0
                = occurrences label labels)
    ∧ (∀ label, dict_get (Penalties.by_severity (Verdict.penalties v)) label 0
                = occurrences label labels * label_weight weights label).
Proof.
  intros weights labels.
  destruct (aggregate_summary results severity_weights)
    as (v & Hv & _ & _ & Htotal & Hcounts).
  exists v. split; [done|]. split; [done|]. split; [done|].
  assert (∀ label, Penalties.by_severity (Verdict.penalties v) !! label
            = if decide (label ∈ labels)
              then Some (occurrences label labels * label_weight weights label)
              else (fun _ => 0) <$> weights !! label) as Hsub.
  { intros label. rewrite aggregate_returns in Hv. injection Hv as <-.
    cbn [Verdict.penalties Penalties.by_severity]. rewrite foldl_subtotals.
    cbn [initial Acc.penalty_by_severity]. fold weights labels.
    rewrite lookup_fmap.
    destruct (decide (label ∈ labels)) as [Hin|Hout]; [|done].
    f_equal. destruct (weights !! label); cbn; lia. }
  split; [done|]. split.
  - intros label. unfold dict_get. rewrite Hcounts. fold weights labels.
    destruct (decide (label ∈ labels)) as [Hin|Hout]; [done|].
    apply occurrences_zero in Hout. rewrite Hout.
    by destruct (weights !! label).
  - intros label. unfold dict_get. rewrite Hsub.
    destruct (decide (label ∈ labels)) as [Hin|Hout]; [done|].
    apply occurrences_zero in Hout. rewrite Hout.
    by destruct (weights !! label).
Qed.

(** ** The penalty breakdown *)

(** X1. [penalties.by_severity] holds, for every observed label, the number
    of its occurrences times its weight (its entry in the effective table,
    or the fallback 10), also for labels the weight table does not hold;
    every key of the weight table that was not observed has subtotal 0; no
    other key is present. *)
Theorem by_severity_subtotals
    (results : list PyObject) (severity_weights : option (gmap string Z)) :
  ∃ v, aggregate_validator_results results severity_weights = inr v
    ∧ ∀ label,
        Penalties.by_severity (Verdict.penalties v) !! label
        = if decide (label ∈ extracted <$> results)
          then Some (occurrences label (extracted <$> results)
                     * label_weight (effective_weights severity_weights) label)
          else if decide (label ∈ dom (effective_weights severity_weights))
               then Some 0
               else None.
Proof.
  destruct (aggregate_breakdown results severity_weights)
    as (v & Hv & _ & _ & Hsub & _).
  exists v. split; [done|]. intros label. rewrite Hsub.
  destruct (decide (label ∈ extracted <$> results)); [done|].
  destruct (decide (label ∈ dom (effective_weights severity_weights)))
    as [[w Hw]%elem_of_dom|Hout%not_elem_of_dom].
  - by rewrite Hw.
  - by rewrite Hout.
Qed.

(** X2. The subtotals of [penalties.by_severity] add up to
    [penalties.total_penalty]. *)
Theorem by_severity_sums_to_total
    (results : list PyObject) (severity_weights : option (gmap string Z)) :
  ∃ v, aggregate_validator_results results severity_weights = inr v
    ∧ dict_sum (Penalties.by_severity (Verdict.penalties v))
      = Penalties.total_penalty (Verdict.penalties v).
Proof.
  eexists. split; [apply aggregate_returns|].
  cbn [Verdict.penalties Penalties.by_severity Penalties.total_penalty].
  pose proof (foldl_sum_subtotals (effective_weights severity_weights)
                (extracted <$> results)
                (initial (effective_weights severity_weights))) as Hsum.
  cbn [initial Acc.penalty_by_severity Acc.total_penalty] in Hsum.
  rewrite dict_sum_zeros in Hsum. cbn [initial] . lia.
Qed.

(** X3. The counts of [severity_counts] add up to the number of result
    items: every item is counted exactly once, under one label. *)
Theorem severity_counts_sum_to_items
    (results : list PyObject) (severity_weights : option (gmap string Z)) :
  ∃ v, aggregate_validator_results results severity_weights = inr v
    ∧ dict_sum (Verdict.severity_counts v) = Z.of_nat (length results).
Proof.
  eexists. split; [apply aggregate_returns|].
  cbn [Verdict.severity_counts].
  rewrite dict_sum_ensure_keys, foldl_sum_counts.
  cbn [initial Acc.severity_counts]. rewrite dict_sum_empty, length_fmap. lia.
Qed.

(** X4. [severity_counts] and [penalties.by_severity] have the same keys,
    and the five labels of the default table are always among them,
    whatever the items and the override table. *)
Theorem breakdowns_share_keys
    (results : list PyObject) (severity_weights : option (gmap string Z)) :
  ∃ v, aggregate_validator_results results severity_weights = inr v
    ∧ dom (Penalties.by_severity (Verdict.penalties v))
      = dom (Verdict.severity_counts v)
    ∧ ({["critical"; "high"; "medium"; "low"; "info"]} : gset string)
      ⊆ dom (Verdict.severity_counts v).
Proof.
  destruct (aggregate_breakdown results severity_weights)
    as (v & Hv & _ & Hcounts & Hsub & _).
  exists v. split; [done|]. split.
  - apply set_eq; intros label. rewrite !elem_of_dom, Hcounts, Hsub.
    destruct (decide (label ∈ extracted <$> results)); [|done].
    split; eauto.
  - intros label Hlabel. rewrite elem_of_dom, Hcounts.
    destruct (decide (label ∈ extracted <$> results)); [by eauto|].
    rewrite fmap_is_Some, lookup_effective_weights.
    destruct (overrides severity_weights !! label); [by eauto|].
    rewrite !elem_of_union, !elem_of_singleton in Hlabel.
    destruct Hlabel as [[[[->| ->]| ->]| ->]| ->]; vm_compute; eauto.
Qed.

(** ** What the verdict depends on *)

(** X5. The verdict depends on the items only through their extracted
    labels, taken as a multiset: two sequences whose labels are a
    permutation of one another give the same verdict, whatever the shapes
    (mapping, attribute, bare string) that carry the labels. *)
Theorem verdict_depends_on_labels_only
    (results results' : list PyObject) (severity_weights : option (gmap string Z)) :
  extracted <$> results ≡ₚ extracted <$> results' →
  aggregate_validator_results results severity_weights
  = aggregate_validator_results results' severity_weights.
Proof.
  intros Hlabels. rewrite !aggregate_returns. cbn zeta.
  by rewrite (foldl_accumulate_perm _ _ _ Hlabels).
Qed.

Lemma verdict_depends_on_labels_only_witness :
  extracted <$> [py_dict {["severity" := PyStr "high"]}; py_string "low"]
    ≡ₚ extracted <$> [py_instance {["severity" := PyStr "low"]}; py_string "high"]
  ∧ aggregate_validator_results
      [py_dict {["severity" := PyStr "high"]}; py_string "low"] None
    = aggregate_validator_results
        [py_instance {["severity" := PyStr "low"]}; py_string "high"] None.
Proof.
  assert (extracted <$> [py_dict {["severity" := PyStr "high"]}; py_string "low"]
            ≡ₚ extracted <$> [py_instance {["severity" := PyStr "low"]};
                              py_string "high"]) as Hlabels
    by apply perm_swap.
  split; [exact Hlabels|].
  exact (verdict_depends_on_labels_only _ _ None Hlabels).
Defined.

(** X6. Aggregating a concatenation: the total penalty, every count and
    every subtotal of [results1 ++ results2] is the sum of those of
    [results1] and of [results2] (same override table), and the score is
    [max(0, 100 - (total1 + total2))]. *)
Theorem aggregation_of_concatenation
    (results1 results2 : list PyObject) (severity_weights : option (gmap string Z)) :
  ∃ v1 v2 v,
    aggregate_validator_results results1 severity_weights = inr v1
    ∧ aggregate_validator_results results2 severity_weights = inr v2
    ∧ aggregate_validator_results (results1 ++ results2) severity_weights = inr v
    ∧ Penalties.total_penalty (Verdict.penalties v)
      = Penalties.total_penalty (Verdict.penalties v1)
        + Penalties.total_penalty (Verdict.penalties v2)
    ∧ Verdict.hygiene_score v
      = Z.max 0 (100 - (Penalties.total_penalty (Verdict.penalties v1)
                        + Penalties.total_penalty (Verdict.penalties v2)))
    ∧ (∀ label, dict_get (Verdict.severity_counts v) label 0
                = dict_get (Verdict.severity_counts v1) label 0
                  + dict_get (Verdict.severity_counts v2) label 0)
    ∧ (∀ label, dict_get (Penalties.by_severity (Verdict.penalties v)) label 0
                = dict_get (Penalties.by_severity (Verdict.penalties v1)) label 0
                  + dict_get (Penalties.by_severity (Verdict.penalties v2)) label 0).
Proof.
  destruct (aggregate_breakdown results1 severity_weights)
    as (v1 & Hv1 & Htotal1 & _ & _ & Hcounts1 & Hsub1).
  destruct (aggregate_breakdown results2 severity_weights)
    as (v2 & Hv2 & Htotal2 & _ & _ & Hcounts2 & Hsub2).
  destruct (aggregate_breakdown (results1 ++ results2) severity_weights)
    as (v & Hv & Htotal & _ & _ & Hcounts & Hsub).
  destruct (aggregate_summary (results1 ++ results2) severity_weights)
    as (v' & Hv' & Hscore & _).
  assert (v' = v) as -> by congruence.
  rewrite fmap_app in Htotal, Hcounts, Hsub, Hscore.
  rewrite sum_weights_app in Htotal, Hscore.
  exists v1, v2, v. repeat split; try done.
  - by rewrite Htotal, Htotal1, Htotal2.
  - by rewrite Hscore, Htotal1, Htotal2.
  - intros label. rewrite Hcounts, Hcounts1, Hcounts2. apply occurrences_app.
  - intros label. rewrite Hsub, Hsub1, Hsub2, occurrences_app. lia.
Qed.

(** X7. One more item moves the score by at most the weight it is charged:
    inserting an item anywhere raises the total penalty by exactly the
    weight of its label, and the hygiene score changes by no more than the
    absolute value of that weight. *)
Theorem one_item_moves_score_by_at_most_its_weight
    (before after : list PyObject) (item : PyObject)
    (severity_weights : option (gmap string Z)) :
  ∃ v v',
    aggregate_validator_results (before ++ after) severity_weights = inr v
    ∧ aggregate_validator_results (before ++ item :: after) severity_weights = inr v'
    ∧ Penalties.total_penalty (Verdict.penalties v')
      = Penalties.total_penalty (Verdict.penalties v)
        + label_weight (effective_weights severity_weights) (extracted item)
    ∧ Z.abs (Verdict.hygiene_score v' - Verdict.hygiene_score v)
      <= Z.abs (label_weight (effective_weights severity_weights) (extracted item)).
Proof.
  destruct (aggregate_summary (before ++ after) severity_weights)
    as (v & Hv & Hscore & _ & Htotal & _).
  destruct (aggregate_summary (before ++ item :: after) severity_weights)
    as (v' & Hv' & Hscore' & _ & Htotal' & _).
  exists v, v'. split; [done|]. split; [done|].
  rewrite fmap_app in Hscore, Htotal, Hscore', Htotal'.
  rewrite fmap_cons in Hscore', Htotal'.
  rewrite sum_weights_app in Hscore, Htotal, Hscore', Htotal'.
  cbn [sum_weights] in Hscore', Htotal'.
  split; [rewrite Htotal, Htotal'; lia|].
  rewrite Hscore, Hscore'. lia.
Qed.

(** X8. An item whose label has weight 0 in the effective table (as "info"
    has by default) and is not "critical" is counted but not charged:
    inserting it leaves the total penalty, the hygiene score and the rating
    as they were and raises the count of its label by 1. *)
Theorem zero_weight_item_is_counted_not_charged
    (before after : list PyObject) (item : PyObject)
    (severity_weights : option (gmap string Z)) :
  effective_weights severity_weights !! extracted item = Some 0 →
  extracted item ≠ "critical" →
  ∃ v v',
    aggregate_validator_results (before ++ after) severity_weights = inr v
    ∧ aggregate_validator_results (before ++ item :: after) severity_weights = inr v'
    ∧ Penalties.total_penalty (Verdict.penalties v')
      = Penalties.total_penalty (Verdict.penalties v)
    ∧ Verdict.hygiene_score v' = Verdict.hygiene_score v
    ∧ Verdict.rating v' = Verdict.rating v
    ∧ dict_get (Verdict.severity_counts v') (extracted item) 0
      = dict_get (Verdict.severity_counts v) (extracted item) 0 + 1.
Proof.
  intros Hzero Hcritical.
  destruct (aggregate_summary (before ++ after) severity_weights)
    as (v & Hv & Hscore & Hrating & Htotal & _).
  destruct (aggregate_summary (before ++ item :: after) severity_weights)
    as (v' & Hv' & Hscore' & Hrating' & Htotal' & _).
  destruct (aggregate_breakdown (before ++ after) severity_weights)
    as (w & Hw & _ & _ & _ & Hcounts & _).
  destruct (aggregate_breakdown (before ++ item :: after) severity_weights)
    as (w' & Hw' & _ & _ & _ & Hcounts' & _).
  assert (w = v) as -> by congruence. assert (w' = v') as -> by congruence.
  exists v, v'. split; [done|]. split; [done|].
  assert (label_weight (effective_weights severity_weights) (extracted item) = 0)
    as Hweight by (unfold label_weight; by rewrite Hzero).
  rewrite fmap_app in Hscore, Hrating, Htotal, Hscore', Hrating', Htotal'.
  rewrite fmap_cons in Hscore', Hrating', Htotal'.
  rewrite sum_weights_app in Hscore, Htotal, Hscore', Htotal'.
  rewrite occurrences_app in Hrating, Hrating'.
  cbn [sum_weights] in Hscore', Htotal'. cbn [occurrences] in Hrating'.
  rewrite Hweight in Hscore', Htotal'.
  rewrite decide_False in Hrating' by done.
  assert (Verdict.hygiene_score v' = Verdict.hygiene_score v) as Hsame
    by (rewrite Hscore, Hscore'; lia).
  split; [rewrite Htotal, Htotal'; lia|]. split; [done|]. split.
  - rewrite Hrating, Hrating', Hsame. f_equal.
  - rewrite Hcounts, Hcounts', !fmap_app, fmap_cons, !occurrences_app.
    cbn [occurrences]. rewrite decide_True by done. lia.
Qed.

Lemma zero_weight_item_is_counted_not_charged_witness :
  effective_weights None !! extracted (py_string "info") = Some 0
  ∧ extracted (py_string "info") ≠ "critical"
  ∧ ∃ v v',
      aggregate_validator_results ([py_string "high"] ++ []) None = inr v
      ∧ aggregate_validator_results
          ([py_string "high"] ++ py_string "info" :: []) None = inr v'
      ∧ Penalties.total_penalty (Verdict.penalties v')
        = Penalties.total_penalty (Verdict.penalties v)
      ∧ Verdict.hygiene_score v' = Verdict.hygiene_score v
      ∧ Verdict.rating v' = Verdict.rating v
      ∧ dict_get (Verdict.severity_counts v') (extracted (py_string "info")) 0
        = dict_get (Verdict.severity_counts v) (extracted (py_string "info")) 0 + 1.
Proof.
  assert (effective_weights None !! extracted (py_string "info") = Some 0) as Hzero
    by (vm_compute; reflexivity).
  assert (extracted (py_string "info") ≠ "critical") as Hcritical
    by (vm_compute; discriminate).
  split; [exact Hzero|]. split; [exact Hcritical|].
  exact (zero_weight_item_is_counted_not_charged
           [py_string "high"] [] (py_string "info") None Hzero Hcritical).
Defined.

(** ** Score and rating as functions of the penalty *)

(** X9. The verdict read in terms of the total penalty: the score is 0
    exactly when the penalty reaches 100; score and penalty add up to
    [max_score] as long as the penalty is at most 100; the rating is
    "unsafe" exactly when the penalty exceeds 40, and "clean" exactly when
    the penalty is at most 10 and no item is critical. *)
Theorem verdict_by_total_penalty
    (results : list PyObject) (severity_weights : option (gmap string Z)) :
  ∃ v, aggregate_validator_results results severity_weights = inr v
    ∧ let total := Penalties.total_penalty (Verdict.penalties v) in
      (Verdict.hygiene_score v = 0 ↔ 100 <= total)
      ∧ (total <= 100 → Verdict.hygiene_score v + total = Verdict.max_score v)
      ∧ (Verdict.rating v = "unsafe" ↔ 40 < total)
      ∧ (Verdict.rating v = "clean"
         ↔ total <= 10 ∧ occurrences "critical" (extracted <$> results) = 0).
Proof.
  destruct (aggregate_summary results severity_weights)
    as (v & Hv & Hscore & Hrating & Htotal & _).
  assert (Verdict.max_score v = 100) as Hmax.
  { rewrite aggregate_returns in Hv. by injection Hv as <-. }
  exists v. split; [done|]. cbn zeta. rewrite Htotal, Hmax, Hrating, Hscore.
  unfold rating_rule.
  split; [lia|]. split; [lia|].
  split; repeat case_decide; split; intros; try done; lia.
Qed.

(** X10. [_rating_from_score] never raises (both thresholds are in
    [RATING_THRESHOLDS]) and returns one of the three ratings; for the same
    counts a higher score never gets a worse rating, and for the same score
    a counts dict without critical findings never gets a worse rating than
    one with some. *)
Theorem rating_from_score_monotone :
  (∀ (score : Z) (counts : gmap string Z),
     ∃ rating, _rating_from_score score counts = inr rating
       ∧ (rating = "clean" ∨ rating = "needs_attention" ∨ rating = "unsafe"))
  ∧ (∀ (score score' : Z) (counts : gmap string Z),
       score <= score' →
       ∃ rating rating',
         _rating_from_score score counts = inr rating
         ∧ _rating_from_score score' counts = inr rating'
         ∧ rating_rank rating <= rating_rank rating')
  ∧ (∀ (score : Z) (counts counts' : gmap string Z),
       dict_get counts "critical" 0 = 0 →
       ∃ rating rating',
         _rating_from_score score counts = inr rating
         ∧ _rating_from_score score counts' = inr rating'
         ∧ rating_rank rating' <= rating_rank rating).
Proof.
  split; [|split].
  - intros score counts. eexists. split; [apply rating_from_score_rule|].
    unfold rating_rule. repeat case_decide; eauto.
  - intros score score' counts Hle. eexists _, _.
    split; [apply rating_from_score_rule|]. split; [apply rating_from_score_rule|].
    rewrite !rank_rating_rule. repeat case_decide; lia.
  - intros score counts counts' Hnone. eexists _, _.
    split; [apply rating_from_score_rule|]. split; [apply rating_from_score_rule|].
    rewrite !rank_rating_rule. unfold CRITICAL_SEVERITY. rewrite Hnone.
    repeat case_decide; lia.
Qed.

Lemma rating_from_score_monotone_witness :
  59 <= 95
  ∧ ∃ rating rating',
      _rating_from_score 59 {["high" := 1]} = inr rating
      ∧ _rating_from_score 95 {["high" := 1]} = inr rating'
      ∧ rating_rank rating <= rating_rank rating'.
Proof.
  assert (59 <= 95) as Hle by lia.
  split; [exact Hle|].
  exact (proj1 (proj2 rating_from_score_monotone) 59 95 {["high" := 1]} Hle).
Defined.

(** ** Override tables that change nothing *)

(** X11. An override table that only repeats entries of the default table
    (the empty table included) is the same as no override table: the whole
    verdict is the one obtained with [severity_weights = None]. *)
Theorem redundant_override_is_ignored
    (results : list PyObject) (override : gmap string Z) :
  override ⊆ DEFAULT_SEVERITY_WEIGHTS →
  aggregate_validator_results results (Some override)
  = aggregate_validator_results results None.
Proof.
  intros Hsub.
  assert (effective_weights (Some override) = effective_weights None) as Hsame.
  { apply map_eq; intros key. rewrite !lookup_effective_weights.
    change (overrides (Some override)) with override.
    change (overrides None) with (∅ : gmap string Z). rewrite lookup_empty.
    destruct (override !! key) as [w|] eqn:Hkey; [|done].
    symmetry. by apply (lookup_weaken override). }
  rewrite !aggregate_returns. cbn zeta. by rewrite Hsame.
Qed.

Lemma redundant_override_is_ignored_witness :
  ({["low" := 5]} : gmap string Z) ⊆ DEFAULT_SEVERITY_WEIGHTS
  ∧ aggregate_validator_results [py_string "low"; py_instance ∅] (Some {["low" := 5]})
    = aggregate_validator_results [py_string "low"; py_instance ∅] None.
Proof.
  assert (({["low" := 5]} : gmap string Z) ⊆ DEFAULT_SEVERITY_WEIGHTS) as Hsub.
  { apply map_singleton_subseteq_l. vm_compute. reflexivity. }
  split; [exact Hsub|].
  exact (redundant_override_is_ignored [py_string "low"; py_instance ∅]
           {["low" := 5]} Hsub).
Defined.

(** * Properties of [validate.py] *)

(** ** Joining strings *)

Lemma append_cons (c : ascii) (s1 s2 : string) :
  String c s1 +:+ s2 = String c (s1 +:+ s2).
Proof. reflexivity. Qed.

Lemma append_assoc (s1 s2 s3 : string) : (s1 +:+ s2) +:+ s3 = s1 +:+ s2 +:+ s3.
Proof.
  induction s1 as [|c s1 IH]; [done|]. by rewrite !append_cons, IH.
Qed.

Lemma append_eq_empty (s1 s2 : string) : s1 +:+ s2 = "" → s1 = "" ∧ s2 = "".
Proof. destruct s1; [done | rewrite append_cons; discriminate]. Qed.

Lemma str_join_cons (sep part : string) (rest : list string) :
  rest ≠ [] → str_join sep (part :: rest) = part +:+ sep +:+ str_join sep rest.
Proof. by destruct rest. Qed.

Lemma str_join_app (sep : string) (parts1 parts2 : list string) :
  parts1 ≠ [] → parts2 ≠ [] →
  str_join sep (parts1 ++ parts2)
  = str_join sep parts1 +:+ sep +:+ str_join sep parts2.
Proof.
  intros Hne1 Hne2. induction parts1 as [|part rest IH]; [done|].
  destruct rest as [|part' rest].
  - cbn [app]. by rewrite str_join_cons.
  - change (((part :: part' :: rest) ++ parts2)%list)
      with (part :: ((part' :: rest) ++ parts2)%list).
    rewrite str_join_cons by done. rewrite IH by done.
    rewrite (str_join_cons sep part (part' :: rest)) by done.
    by rewrite !append_assoc.
Qed.

Lemma str_join_empty (sep : string) (parts : list string) :
  sep ≠ "" → str_join sep parts = "" ↔ parts = [] ∨ parts = [""].
Proof.
  intros Hsep. destruct parts as [|part [|part' rest]].
  - cbn. tauto.
  - cbn. split; [intros ->; by right | intros [?|[= ->]]; done].
  - rewrite str_join_cons by done. split.
    + intros [_ [? _]%append_eq_empty]%append_eq_empty. done.
    + intros [?|?]; done.
Qed.

(** ** Decimal numerals *)

Lemma pretty_N_go_digit (x : N) (s : string) :
  (0 < x)%N → ∃ d t, pretty_N_go x s = String (pretty_N_char d) t.
Proof.
  revert s. induction (N.lt_wf_0 x) as [x _ IH]; intros s Hpos.
  rewrite pretty_N_go_step by done.
  destruct (decide (x `div` 10 = 0)%N) as [Hzero|Hne].
  - rewrite Hzero, pretty_N_go_0. eauto.
  - apply IH; [by apply N.div_lt | by apply N.neq_0_lt_0].
Qed.

Lemma pretty_N_digit (x : N) : ∃ d t, pretty x = String (pretty_N_char d) t.
Proof.
  unfold pretty, pretty_N. case_decide as Hzero.
  - by exists 0%N, "".
  - apply pretty_N_go_digit. lia.
Qed.

Lemma pretty_N_not_empty (x : N) : pretty x ≠ "".
Proof. destruct (pretty_N_digit x) as (d & t & ->). discriminate. Qed.

Lemma pretty_N_not_root (x : N) : pretty x ≠ "root".
Proof.
  destruct (pretty_N_digit x) as (d & t & ->). intros [= Hchar _].
  unfold pretty_N_char in Hchar. repeat case_match; discriminate.
Qed.

(** ** Locations and reports *)

Lemma dotted_is_not_root (part rest : string) : part +:+ "." +:+ rest ≠ "root".
Proof.
  intros H.
  do 4 (destruct part as [|? part];
        [cbv in H; discriminate | rewrite append_cons in H; injection H as ? H]).
  destruct part; [cbv in H | rewrite append_cons in H]; discriminate.
Qed.

Lemma newline_not_empty : newline ≠ "".
Proof. done. Qed.

(** X12. The location [format_errors] prints for an error is "root" in
    exactly three cases: the error is at the top level (empty path), at a
    top-level property whose name is the empty string, or at a top-level
    property named "root". *)
Theorem error_location_root (err : ValidationError) :
  error_location err = "root"
  ↔ path err = [] ∨ path err = [PathKey ""] ∨ path err = [PathKey "root"].
Proof.
  unfold error_location. destruct err as [items msg]; cbn [path].
  case_decide as Hjoined.
  - split; [intros _ | done].
    apply str_join_empty in Hjoined; [|done].
    destruct Hjoined as [Hnil|Hone].
    + left. by apply fmap_nil_inv in Hnil.
    + right; left. destruct items as [|[name|index] [|? ?]]; try done.
      * by injection Hone as ->.
      * injection Hone as Hone. by destruct (pretty_N_not_empty index).
  - split.
    + intros Hroot. right; right.
      destruct items as [|item [|item' rest]]; [done| |].
      * destruct item as [name|index]; cbn in Hroot; [by subst|].
        by destruct (pretty_N_not_root index).
      * rewrite !fmap_cons, str_join_cons in Hroot by done.
        by destruct (dotted_is_not_root _ _ Hroot).
    + intros [->|[->| ->]]; done.
Qed.

(** X13. The report of [format_errors] is empty exactly when there is no
    error; otherwise it starts with the line of the first error,
    "- At `...", and the report of two non-empty lists put together is the
    two reports separated by one line feed. *)
Theorem format_errors_report :
  (∀ errors, format_errors errors = "" ↔ errors = [])
  ∧ (∀ err errors, starts_with "- At `" (format_errors (err :: errors)))
  ∧ (∀ errors1 errors2, errors1 ≠ [] → errors2 ≠ [] →
       format_errors (errors1 ++ errors2)
       = format_errors errors1 +:+ newline +:+ format_errors errors2).
Proof.
  split; [|split].
  - intros errors. unfold format_errors.
    rewrite str_join_empty by apply newline_not_empty. split.
    + intros [Hnil|Hone]; [by apply fmap_nil_inv in Hnil|].
      destruct errors as [|err [|? ?]]; done.
    + intros ->. by left.
  - intros err errors. unfold format_errors, starts_with. rewrite fmap_cons.
    destruct errors as [|err' errors].
    + cbn [fmap list_fmap str_join]. unfold format_error. eauto.
    + rewrite str_join_cons by done. unfold format_error at 1.
      rewrite !append_assoc. eauto.
  - intros errors1 errors2 Hne1 Hne2. unfold format_errors.
    rewrite fmap_app. apply str_join_app.
    + by destruct errors1.
    + by destruct errors2.
Qed.

Lemma format_errors_report_witness :
  [mkValidationError [PathKey "tags"; PathIndex 2] "too long"] ≠ []
  ∧ [mkValidationError [] "missing id"] ≠ []
  ∧ format_errors ([mkValidationError [PathKey "tags"; PathIndex 2] "too long"]
                   ++ [mkValidationError [] "missing id"])
    = format_errors [mkValidationError [PathKey "tags"; PathIndex 2] "too long"]
      +:+ newline +:+ format_errors [mkValidationError [] "missing id"].
Proof.
  assert ([mkValidationError [PathKey "tags"; PathIndex 2] "too long"] ≠ []) as H1
    by discriminate.
  assert ([mkValidationError [] "missing id"] ≠ []) as H2 by discriminate.
  split; [exact H1|]. split; [exact H2|].
  exact (proj2 (proj2 format_errors_report) _ _ H1 H2).
Defined.

Example format_errors_example :
  format_errors [mkValidationError [PathKey "tags"; PathIndex 2] "too long";
                 mkValidationError [] "missing id"]
  = "- At `tags.2`: too long" +:+ newline +:+ "- At `root`: missing id".
Proof. vm_compute. reflexivity. Qed.

Lemma format_errors_starts (err : ValidationError) (errors : list ValidationError) :
  starts_with "- At `" (format_errors (err :: errors)).
Proof.
  unfold format_errors, starts_with. rewrite fmap_cons.
  destruct errors as [|err' errors].
  - cbn [fmap list_fmap str_join]. unfold format_error. eauto.
  - rewrite str_join_cons by done. unfold format_error at 1.
    rewrite !append_assoc. eauto.
Qed.

(** ** Counting and shifting *)

Lemma count_lines_app (P : string → bool) (l1 l2 : list string) :
  count_lines P (l1 ++ l2) = count_lines P l1 + count_lines P l2.
Proof. induction l1 as [|l rest IH]; cbn [count_lines app]; lia. Qed.

Lemma count_lines_bounds (P : string → bool) (lines : list string) :
  0 <= count_lines P lines <= Z.of_nat (length lines).
Proof.
  induction lines as [|l rest IH]; cbn [count_lines length]; [lia|].
  destruct (P l); lia.
Qed.

Lemma count_lines_zero (P : string → bool) (lines : list string) :
  count_lines P lines = 0 ↔ Forall (fun l => P l = false) lines.
Proof.
  induction lines as [|l rest IH]; cbn [count_lines].
  - split; [constructor | done].
  - pose proof (count_lines_bounds P rest). rewrite Forall_cons, <- IH.
    destruct (P l); split; intros; try lia; naive_solver.
Qed.

(** ** A dataset, line by line *)

Section validate_properties.

Context {Entry : Type}.
Context (json_loads : string → string + Entry).
Context (strip : string → string).
Context (sorted_errors : Entry → list ValidationError).

Local Abbreviation run := (validate_jsonl json_loads strip sorted_errors).
Local Abbreviation scan := (scan_lines json_loads strip sorted_errors).
Local Abbreviation check := (validate_entry sorted_errors).
Local Abbreviation blank := (is_blank strip).
Local Abbreviation ok := (conforms json_loads strip sorted_errors).
Local Abbreviation bad := (fails json_loads strip sorted_errors).
Local Abbreviation text := (failure_text json_loads strip sorted_errors).
Local Abbreviation failed := (failures json_loads strip sorted_errors).

Lemma status_blank (l : string) : strip l = "" → ok l = false ∧ bad l = false.
Proof.
  intros Hblank. unfold fails, conforms, is_blank.
  by rewrite bool_decide_eq_true_2.
Qed.

Lemma status_malformed (l e : string) :
  strip l ≠ "" → json_loads (strip l) = inl e →
  ok l = false ∧ bad l = true ∧ text l = "Malformed JSON: " +:+ e.
Proof.
  intros Hline Hparse. unfold fails, conforms, is_blank, failure_text.
  by rewrite bool_decide_eq_false_2, Hparse.
Qed.

Lemma status_conforming (l : string) (entry : Entry) :
  strip l ≠ "" → json_loads (strip l) = inr entry → sorted_errors entry = [] →
  ok l = true ∧ bad l = false.
Proof.
  intros Hline Hparse Hnone. unfold fails, conforms, is_blank.
  by rewrite bool_decide_eq_false_2, Hparse, Hnone.
Qed.

Lemma status_violating (l : string) (entry : Entry) :
  strip l ≠ "" → json_loads (strip l) = inr entry → sorted_errors entry ≠ [] →
  ok l = false ∧ bad l = true ∧ text l = format_errors (sorted_errors entry).
Proof.
  intros Hline Hparse Hsome. unfold fails, conforms, is_blank, failure_text.
  rewrite bool_decide_eq_false_2, Hparse by done.
  by destruct (sorted_errors entry).
Qed.

(** The loop, in closed form. *)
Lemma scan_closed (lines : list string) (i : Z) (results : Results.t) :
  scan i lines results
  = Results.mk (Results.valid results + count_lines ok lines)
      (Results.invalid results + count_lines bad lines)
      (Results.errors results ++ failed i lines).
Proof.
  revert i results. induction lines as [|l rest IH]; intros i results.
  - cbn [scan_lines count_lines failures]. destruct results as [v n errs].
    cbn. by rewrite !Z.add_0_r, app_nil_r.
  - cbn [scan_lines count_lines failures]. case_decide as Hline.
    + destruct (status_blank l Hline) as [-> ->]. rewrite IH. f_equal.
    + destruct (json_loads (strip l)) as [e|entry] eqn:Hparse.
      * destruct (status_malformed l e Hline Hparse) as (-> & -> & ->).
        rewrite IH. cbn [Results.valid Results.invalid Results.errors].
        rewrite <- app_assoc. f_equal; lia.
      * unfold validate_entry.
        destruct (sorted_errors entry) as [|err errs] eqn:Herrors.
        -- destruct (status_conforming l entry Hline Hparse Herrors) as [-> ->].
           rewrite IH. cbn [Results.valid Results.invalid Results.errors].
           f_equal; lia.
        -- destruct (status_violating l entry Hline Hparse) as (-> & -> & ->);
             [by rewrite Herrors|].
           rewrite IH, Herrors.
           cbn [Results.valid Results.invalid Results.errors].
           rewrite <- app_assoc. f_equal; lia.
Qed.

Lemma run_closed (lines : list string) :
  run lines = Results.mk (count_lines ok lines) (count_lines bad lines) (failed 1 lines).
Proof. unfold validate_jsonl. by rewrite scan_closed. Qed.

Lemma failures_length (i : Z) (lines : list string) :
  Z.of_nat (length (failed i lines)) = count_lines bad lines.
Proof.
  revert i. induction lines as [|l rest IH]; intros i; cbn [failures count_lines]; [done|].
  rewrite length_app, Nat2Z.inj_add, IH. by destruct (bad l).
Qed.

Lemma failures_shift (i n : Z) (lines : list string) :
  failed (i + n) lines = shift n (failed i lines).
Proof.
  revert i. induction lines as [|l rest IH]; intros i; cbn [failures]; [done|].
  unfold shift. rewrite fmap_app. fold (shift n (failed (i + 1) rest)).
  rewrite <- IH. replace (i + n + 1) with (i + 1 + n) by lia.
  by destruct (bad l).
Qed.

Lemma failures_app (i : Z) (l1 l2 : list string) :
  failed i (l1 ++ l2) = (failed i l1 ++ failed (i + Z.of_nat (length l1)) l2)%list.
Proof.
  revert i. induction l1 as [|l rest IH]; intros i; cbn [failures app length].
  - by rewrite Z.add_0_r.
  - rewrite IH, <- app_assoc. do 3 f_equal. lia.
Qed.

Lemma failures_elem (i : Z) (lines : list string) (e : LineError.t) :
  e ∈ failed i lines
  ↔ ∃ (k : nat) (l : string),
      lines !! k = Some l ∧ bad l = true
      ∧ e = LineError.mk (i + Z.of_nat k) (Some (text l)).
Proof.
  revert i. induction lines as [|l rest IH]; intros i; cbn [failures].
  - split; [by intros ?%elem_of_nil | by intros (k & l & ? & _)].
  - rewrite elem_of_app, IH. split.
    + intros [Hhead|(k & l' & Hk & Hbad & ->)].
      * destruct (bad l) eqn:Hbad; [|by apply elem_of_nil in Hhead].
        apply list_elem_of_singleton in Hhead as ->.
        exists 0%nat, l. by rewrite Z.add_0_r.
      * exists (S k), l'. split; [done|]. split; [done|]. f_equal. lia.
    + intros ([|k] & l' & Hk & Hbad & ->).
      * injection Hk as ->. left. rewrite Hbad, Z.add_0_r.
        by apply list_elem_of_singleton.
      * right. exists k, l'. split; [done|]. split; [done|]. f_equal. lia.
Qed.

Lemma failures_sorted (i : Z) (lines : list string) :
  StronglySorted Z.lt (LineError.line <$> failed i lines)
  ∧ Forall (fun n => i <= n) (LineError.line <$> failed i lines).
Proof.
  revert i. induction lines as [|l rest IH]; intros i; cbn [failures].
  - split; constructor.
  - destruct (IH (i + 1)) as [Hsorted Hlower].
    assert (Forall (fun n => i < n) (LineError.line <$> failed (i + 1) rest)) as Hlt
      by (eapply Forall_impl; [exact Hlower | cbn; intros; lia]).
    destruct (bad l); cbn [app fmap list_fmap LineError.line].
    + split; constructor; try done. 
      eapply Forall_impl; [exact Hlt | cbn; intros; lia].
    + split; [done|]. eapply Forall_impl; [exact Hlt | cbn; intros; lia].
Qed.

Lemma statuses_add_up (l : string) :
  (if ok l then 1 else 0) + (if bad l then 1 else 0)
  = if negb (blank l) then 1 else 0.
Proof.
  unfold fails, conforms. destruct (is_blank strip l); cbn [negb andb]; [done|].
  destruct (json_loads (strip l)) as [?|entry]; [done|].
  by destruct (sorted_errors entry).
Qed.

Lemma bad_iff (l : string) :
  bad l = false ↔ strip l = "" ∨ ok l = true.
Proof.
  unfold fails, conforms, is_blank. case_bool_decide as Hline; cbn [negb andb].
  - tauto.
  - destruct (json_loads (strip l)) as [?|entry];
      [cbn [negb andb]; intuition congruence|].
    destruct (sorted_errors entry); cbn [negb andb]; intuition congruence.
Qed.


Lemma blanks_closed (blanks : list string) (i : Z) :
  Forall (fun l => strip l = "") blanks →
  count_lines ok blanks = 0 ∧ count_lines bad blanks = 0 ∧ failed i blanks = [].
Proof.
  intros Hblanks. revert i.
  induction Hblanks as [|l rest Hl _ IH]; intros i; cbn [count_lines failures]; [done|].
  destruct (status_blank l Hl) as [-> ->]. destruct (IH (i + 1)) as (-> & -> & ->).
  done.
Qed.

(** X14. [validate_entry] reports success exactly when the validator finds
    no error, and only then is its second component [None]; otherwise the
    second component is the report of [format_errors], which is not empty
    and starts with "- At `". *)
Theorem validate_entry_outcome (entry : Entry) :
  (fst (validate_entry sorted_errors entry) = true ↔ sorted_errors entry = [])
  ∧ (snd (validate_entry sorted_errors entry) = None ↔ sorted_errors entry = [])
  ∧ (∀ report, snd (validate_entry sorted_errors entry) = Some report →
       fst (validate_entry sorted_errors entry) = false
       ∧ report = format_errors (sorted_errors entry)
       ∧ report ≠ ""
       ∧ starts_with "- At `" report).
Proof.
  unfold validate_entry.
  destruct (sorted_errors entry) as [|err errs] eqn:Herrors; cbn [fst snd].
  - split; [done|]. split; [done|]. intros report [=].
  - split; [done|]. split; [done|]. intros report [= <-].
    destruct (format_errors_starts err errs) as [rest Hrest].
    split; [done|]. split; [done|]. split; [by rewrite Hrest | by exists rest].
Qed.

(** X15. In the result of [validate_jsonl], "valid" is the number of lines
    that parse and conform, "invalid" the number of lines that are not
    blank and do not, and there is one entry of "errors" per invalid line;
    the two counts add up to the number of lines that are not blank after
    stripping, so blank lines count for nothing. *)
Theorem validate_jsonl_counts (lines : list string) :
  let results := validate_jsonl json_loads strip sorted_errors lines in
  Results.valid results
  = count_lines (conforms json_loads strip sorted_errors) lines
  ∧ Results.invalid results
    = count_lines (fails json_loads strip sorted_errors) lines
  ∧ Results.valid results + Results.invalid results
    = count_lines (fun l => negb (is_blank strip l)) lines
  ∧ Z.of_nat (length (Results.errors results)) = Results.invalid results
  ∧ 0 <= Results.valid results
  ∧ 0 <= Results.invalid results
  ∧ Results.valid results + Results.invalid results <= Z.of_nat (length lines).
Proof.
  intros results. subst results.
  rewrite run_closed. cbn [Results.valid Results.invalid Results.errors].
  assert (count_lines ok lines + count_lines bad lines
          = count_lines (fun l => negb (blank l)) lines) as Hsum.
  { induction lines as [|l rest IH]; cbn [count_lines]; [done|].
    pose proof (statuses_add_up l). lia. }
  pose proof (count_lines_bounds ok lines).
  pose proof (count_lines_bounds bad lines).
  pose proof (count_lines_bounds (fun l => negb (blank l)) lines).
  rewrite failures_length. repeat split; lia.
Qed.

(** X16. The entries of "errors" come in increasing order of line number;
    line numbers start at 1 and count every line of the file, blank ones
    included; and an entry is recorded for line [n] exactly when line [n]
    is not blank and fails, with the parse message or the validation
    report of that line as its text. *)
Theorem validate_jsonl_error_lines (lines : list string) :
  let errors := Results.errors (validate_jsonl json_loads strip sorted_errors lines) in
  StronglySorted Z.lt (LineError.line <$> errors)
  ∧ (∀ e, e ∈ errors → 1 <= LineError.line e <= Z.of_nat (length lines))
  ∧ (∀ e, e ∈ errors
          ↔ ∃ l, 1 <= LineError.line e
               ∧ lines !! Z.to_nat (LineError.line e - 1) = Some l
               ∧ fails json_loads strip sorted_errors l = true
               ∧ LineError.error e
                 = Some (failure_text json_loads strip sorted_errors l)).
Proof.
  intros errors. subst errors.
  rewrite run_closed. cbn [Results.errors].
  split; [apply failures_sorted|]. split.
  - intros e (k & l & Hk & _ & ->)%failures_elem. cbn [LineError.line].
    apply lookup_lt_Some in Hk. lia.
  - intros e. rewrite failures_elem. split.
    + intros (k & l & Hk & Hbad & ->). exists l. cbn [LineError.line LineError.error].
      replace (Z.to_nat (1 + Z.of_nat k - 1)) with k by lia.
      split; [lia|]. done.
    + intros (l & Hpos & Hk & Hbad & Htext).
      exists (Z.to_nat (LineError.line e - 1)), l. split; [done|]. split; [done|].
      destruct e as [n t]. cbn [LineError.line LineError.error] in *.
      subst t. f_equal. lia.
Qed.

(** X17. The list "errors" is empty exactly when "invalid" is 0, and that
    is exactly when every line is blank or conforms. *)
Theorem validate_jsonl_clean_iff (lines : list string) :
  let results := validate_jsonl json_loads strip sorted_errors lines in
  (Results.errors results = [] ↔ Results.invalid results = 0)
  ∧ (Results.invalid results = 0
     ↔ Forall (fun l => strip l = ""
                        ∨ conforms json_loads strip sorted_errors l = true)
         lines).
Proof.
  intros results. subst results.
  rewrite run_closed. cbn [Results.errors Results.invalid]. split.
  - rewrite <- (failures_length 1 lines).
    destruct (failed 1 lines); cbn [length]; split; intros; try done; lia.
  - rewrite count_lines_zero. apply Forall_proper; [|done].
    intros l. apply bad_iff.
Qed.

(** X18. Validating two datasets one after the other: the counts of
    [lines1 ++ lines2] are the sums of the counts of the two parts, and its
    errors are those of [lines1] followed by those of [lines2] with their
    line numbers moved down by the number of lines of [lines1]. *)
Theorem validate_jsonl_concatenation (lines1 lines2 : list string) :
  let results1 := validate_jsonl json_loads strip sorted_errors lines1 in
  let results2 := validate_jsonl json_loads strip sorted_errors lines2 in
  validate_jsonl json_loads strip sorted_errors (lines1 ++ lines2)
  = Results.mk
      (Results.valid results1 + Results.valid results2)
      (Results.invalid results1 + Results.invalid results2)
      (Results.errors results1
       ++ shift (Z.of_nat (length lines1)) (Results.errors results2)).
Proof.
  intros results1 results2. subst results1 results2.
  rewrite !run_closed. cbn [Results.valid Results.invalid Results.errors].
  by rewrite !count_lines_app, failures_app, failures_shift.
Qed.

(** X19. Blank lines only move line numbers: a dataset of blank lines gives
    no count and no error; blank lines at the end change nothing; blank
    lines at the start leave the counts and the error texts and add their
    number to every error's line number. *)
Theorem validate_jsonl_blank_lines (blanks lines : list string) :
  Forall (fun l => strip l = "") blanks →
  let results := validate_jsonl json_loads strip sorted_errors lines in
  validate_jsonl json_loads strip sorted_errors blanks = Results.mk 0 0 []
  ∧ validate_jsonl json_loads strip sorted_errors (lines ++ blanks) = results
  ∧ validate_jsonl json_loads strip sorted_errors (blanks ++ lines)
    = Results.mk (Results.valid results) (Results.invalid results)
        (shift (Z.of_nat (length blanks)) (Results.errors results)).
Proof.
  intros Hblanks results. subst results. rewrite !run_closed.
  cbn [Results.valid Results.invalid Results.errors].
  rewrite !count_lines_app, !failures_app.
  destruct (blanks_closed blanks 1 Hblanks) as (-> & -> & ->).
  destruct (blanks_closed blanks (1 + Z.of_nat (length lines)) Hblanks)
    as (_ & _ & ->).
  rewrite failures_shift, !Z.add_0_r, app_nil_r. done.
Qed.


End validate_properties.

(** A dataset of three lines between blank ones, with a parser that rejects
    "{" and a validator that rejects the entry "x". *)
Lemma validate_jsonl_blank_lines_witness :
  let loads := fun s : string =>
    if decide (s = "{") then inl "Expecting property name" else inr s in
  let strip := fun s : string => s in
  let errors_of := fun entry : string =>
    if decide (entry = "x") then [mkValidationError [] "missing id"] else [] in
  Forall (fun l => strip l = "") [""; ""]
  ∧ validate_jsonl loads strip errors_of [""; ""] = Results.mk 0 0 []
  ∧ validate_jsonl loads strip errors_of (["{"; "x"; "ok"] ++ [""; ""])
    = validate_jsonl loads strip errors_of ["{"; "x"; "ok"]
  ∧ validate_jsonl loads strip errors_of ([""; ""] ++ ["{"; "x"; "ok"])
    = Results.mk
        (Results.valid (validate_jsonl loads strip errors_of ["{"; "x"; "ok"]))
        (Results.invalid (validate_jsonl loads strip errors_of ["{"; "x"; "ok"]))
        (shift (Z.of_nat (length [""; ""]))
           (Results.errors (validate_jsonl loads strip errors_of ["{"; "x"; "ok"]))).
Proof.
  intros loads strip errors_of.
  assert (Forall (fun l => strip l = "") [""; ""]) as Hblanks
    by (repeat constructor).
  split; [exact Hblanks|].
  exact (validate_jsonl_blank_lines loads strip errors_of
           [""; ""] ["{"; "x"; "ok"] Hblanks).
Defined.


Example validate_jsonl_example :
  validate_jsonl
    (fun s : string =>
       if decide (s = "{") then inl "Expecting property name" else inr s)
    (fun s : string => s)
    (fun entry : string =>
       if decide (entry = "x") then [mkValidationError [] "missing id"] else [])
    ["{"; ""; "x"; "ok"]
  = Results.mk 1 2
      [LineError.mk 1 (Some "Malformed JSON: Expecting property name");
       LineError.mk 3 (Some "- At `root`: missing id")].
Proof. vm_compute. reflexivity. Qed.
